(** * Task-management backend: handlers, token middleware and document store

    A shallow embedding of the Go packages [models], [utils], [middleware]
    and [handlers] of the task-management service, together with executable
    models of the external libraries the handlers call into:

    - [bson/primitive] (object identifiers, their hexadecimal form, and
      millisecond date-times),
    - the MongoDB collection primitives [FindOne], [Find], [InsertOne],
      [UpdateOne] and [DeleteOne], over an in-memory collection,
    - [golang-jwt/jwt/v4] ([SignedString], [Parse] and the validation of
      [MapClaims]) and [x/crypto/bcrypt].

    Handlers are state-passing functions: they take the per-request
    environment (clock, identifier generator, salt), the Fiber context and
    the two collections, and return what they answered together with the
    collections afterwards. *)

From Stdlib Require Import ZArith NArith List String Ascii Bool Lia.
From Stdlib Require Import Strings.Byte.
Import ListNotations.

Local Open Scope string_scope.
Local Open Scope Z_scope.
Local Open Scope list_scope.

(* ================================================================== *)
(** ** Go strings *)

Fixpoint chars (s : string) : list ascii :=
  match s with
  | EmptyString => []
  | String c r => c :: chars r
  end.

Fixpoint of_chars (l : list ascii) : string :=
  match l with
  | [] => EmptyString
  | c :: r => String c (of_chars r)
  end.

(** [s == ""] *)
Definition is_blank (s : string) : bool :=
  match s with EmptyString => true | String _ _ => false end.

(* ================================================================== *)
(** ** bson/primitive *)

Module Primitive.

(** [type ObjectID [12]byte] *)
Definition ObjectID := list byte.

(** [var NilObjectID ObjectID] : the zero value of the array. *)
Definition NilObjectID : ObjectID := repeat x00 12.

Fixpoint bytes_eqb (a b : list byte) : bool :=
  match a, b with
  | [], [] => true
  | x :: a', y :: b' => Byte.eqb x y && bytes_eqb a' b'
  | _, _ => false
  end.

Definition oid_eqb (a b : ObjectID) : bool := bytes_eqb a b.

(** [func (id ObjectID) IsZero() bool] *)
Definition IsZero (id : ObjectID) : bool := oid_eqb id NilObjectID.

(** The value [ObjectID] arrays that occur at run time: twelve bytes. *)
Definition well_formed (id : ObjectID) : Prop := List.length id = 12%nat.

(** *** encoding/hex *)

Definition hextable : list ascii := chars "0123456789abcdef".

Definition hexdigit (n : N) : ascii := nth (N.to_nat n) hextable "0"%char.

(** [hex.Encode]: [hextable[v>>4]], [hextable[v&0x0f]] for every byte. *)
Fixpoint hex_encode (src : list byte) : list ascii :=
  match src with
  | [] => []
  | v :: r =>
      hexdigit (N.shiftr (Byte.to_N v) 4)
      :: hexdigit (N.land (Byte.to_N v) 15)
      :: hex_encode r
  end.

(** [fromHexChar]: digits, then lower-case, then upper-case letters. *)
Definition fromHexChar (c : ascii) : option N :=
  let n := N_of_ascii c in
  if (48 <=? n)%N && (n <=? 57)%N then Some (n - 48)%N
  else if (97 <=? n)%N && (n <=? 102)%N then Some (n - 97 + 10)%N
  else if (65 <=? n)%N && (n <=? 70)%N then Some (n - 65 + 10)%N
  else None.

Definition isHexChar (c : ascii) : bool :=
  match fromHexChar c with Some _ => true | None => false end.

Definition byte_of_nibbles (a b : N) : byte :=
  match Byte.of_N (N.lor (N.shiftl a 4) b) with
  | Some v => v
  | None => x00
  end.

(** [hex.Decode]: two characters per byte; [None] stands for the
    [InvalidByteError] and [ErrLength] results. *)
Fixpoint hex_decode (src : list ascii) : option (list byte) :=
  match src with
  | [] => Some []
  | [_] => None
  | p :: q :: r =>
      match fromHexChar p, fromHexChar q with
      | Some a, Some b =>
          match hex_decode r with
          | Some l => Some (byte_of_nibbles a b :: l)
          | None => None
          end
      | _, _ => None
      end
  end.

(** [func (id ObjectID) Hex() string] *)
Definition Hex (id : ObjectID) : string := of_chars (hex_encode id).

Inductive HexError := ErrInvalidHex | InvalidByteError.

(** [func ObjectIDFromHex(s string) (ObjectID, error)].  As in Go the
    function returns a pair; on failure the first component is
    [NilObjectID]. *)
Definition ObjectIDFromHex (s : string) : ObjectID * option HexError :=
  if negb (Nat.eqb (String.length s) 24) then (NilObjectID, Some ErrInvalidHex)
  else match hex_decode (chars s) with
       | Some b => (b, None)
       | None => (NilObjectID, Some InvalidByteError)
       end.

(** The well-formed identifier strings: twenty-four hexadecimal digits. *)
Definition is_object_id_hex (s : string) : bool :=
  Nat.eqb (String.length s) 24 && forallb isHexChar (chars s).

(** [type DateTime int64]: milliseconds since the Unix epoch. *)
Definition DateTime := Z.

End Primitive.

(* ================================================================== *)
(** ** time *)

Module Time.

(** An instant, in nanoseconds since the Unix epoch. *)
Definition Time := Z.

(** [type Duration int64], nanoseconds. *)
Definition Duration := Z.

Definition int64_wrap (z : Z) : Z := (z + 2 ^ 63) mod 2 ^ 64 - 2 ^ 63.

Definition Second : Duration := 1000000000.

(** [time.Second * time.Duration(n)] : an [int64] product. *)
Definition Seconds (n : Z) : Duration := int64_wrap (Second * n).

(** [func (t Time) Add(d Duration) Time] *)
Definition Add (t : Time) (d : Duration) : Time := t + d.

(** [func (t Time) Unix() int64] : whole seconds, rounded down. *)
Definition Unix (t : Time) : Z := t / 1000000000.

(** [primitive.NewDateTimeFromTime] *)
Definition NewDateTimeFromTime (t : Time) : Primitive.DateTime :=
  Unix t * 1000 + (t mod 1000000000) / 1000000.

End Time.

(* ================================================================== *)
(** ** models *)

Module Models.
Import Primitive.

Module User.
(** [type User struct], with its [bson] element names
    [_id,omitempty], [username], [password]. *)
Record User := {
  ID : ObjectID;
  Username : string;
  Password : string;
}.
End User.

Module Task.
(** [type Task struct], with its [bson] element names [_id,omitempty],
    [userId], [title], [description], [allotted_to], [done_by], [status],
    [start_time], [end_time]. *)
Record Task := {
  ID : ObjectID;
  UserID : ObjectID;
  Title : string;
  Description : string;
  AllottedTo : string;
  DoneBy : string;
  Status : string;
  StartDate : DateTime;
  EndDate : DateTime;
}.
End Task.

Abbreviation User := User.User.
Abbreviation Task := Task.Task.

(** The zero value a Go [var user models.User] starts from. *)
Definition zeroUser : User :=
  {| User.ID := NilObjectID; User.Username := ""; User.Password := "" |}.

End Models.

(* ================================================================== *)
(** ** bson and the MongoDB collection primitives *)

Module Bson.
Import Primitive.

Inductive Value :=
| ObjectIDValue (o : ObjectID)
| StringValue (s : string)
| DateTimeValue (d : DateTime).

Definition value_eqb (a b : Value) : bool :=
  match a, b with
  | ObjectIDValue x, ObjectIDValue y => oid_eqb x y
  | StringValue x, StringValue y => String.eqb x y
  | DateTimeValue x, DateTimeValue y => Z.eqb x y
  | _, _ => false
  end.

(** [bson.M], used as a filter: every listed element must be equal. *)
Definition M := list (string * Value).

End Bson.

Module Mongo.
Import Primitive Models.

(** What the typed structs look like as stored documents. *)
Class Document (D : Type) := {
  doc_id : D -> ObjectID;
  with_id : ObjectID -> D -> D;
  element : D -> string -> option Bson.Value;
}.

#[export] Instance UserDocument : Document User := {
  doc_id := User.ID;
  with_id i u :=
    {| User.ID := i; User.Username := User.Username u;
       User.Password := User.Password u |};
  element u k :=
    if String.eqb k "_id" then Some (Bson.ObjectIDValue (User.ID u))
    else if String.eqb k "username" then Some (Bson.StringValue (User.Username u))
    else if String.eqb k "password" then Some (Bson.StringValue (User.Password u))
    else None;
}.

#[export] Instance TaskDocument : Document Task := {
  doc_id := Task.ID;
  with_id i t :=
    {| Task.ID := i; Task.UserID := Task.UserID t; Task.Title := Task.Title t;
       Task.Description := Task.Description t;
       Task.AllottedTo := Task.AllottedTo t; Task.DoneBy := Task.DoneBy t;
       Task.Status := Task.Status t; Task.StartDate := Task.StartDate t;
       Task.EndDate := Task.EndDate t |};
  element t k :=
    if String.eqb k "_id" then Some (Bson.ObjectIDValue (Task.ID t))
    else if String.eqb k "userId" then Some (Bson.ObjectIDValue (Task.UserID t))
    else if String.eqb k "title" then Some (Bson.StringValue (Task.Title t))
    else if String.eqb k "description" then Some (Bson.StringValue (Task.Description t))
    else if String.eqb k "allotted_to" then Some (Bson.StringValue (Task.AllottedTo t))
    else if String.eqb k "done_by" then Some (Bson.StringValue (Task.DoneBy t))
    else if String.eqb k "status" then Some (Bson.StringValue (Task.Status t))
    else if String.eqb k "start_time" then Some (Bson.DateTimeValue (Task.StartDate t))
    else if String.eqb k "end_time" then Some (Bson.DateTimeValue (Task.EndDate t))
    else None;
}.

Inductive Error :=
| ErrNoDocuments
| DuplicateKey        (* write error E11000 on the [_id] index *)
| ImmutableField.     (* write error 66: [$set] would change [_id] *)

Inductive result (A : Type) :=
| Ok (a : A)
| Err (e : Error).
Arguments Ok {A} a.
Arguments Err {A} e.

Record InsertOneResult := { InsertedID : ObjectID }.
Record UpdateResult := { MatchedCount : Z }.
Record DeleteResult := { DeletedCount : Z }.

Section Collection.
Context {D : Type} `{Document D}.

(** A collection in natural (insertion) order. *)
Definition Collection := list D.

Definition matches (filter : Bson.M) (d : D) : bool :=
  forallb (fun kv => match element d (fst kv) with
                     | Some v => Bson.value_eqb v (snd kv)
                     | None => false
                     end) filter.

(** [FindOne(ctx, filter).Decode(&v)] *)
Definition FindOne (filter : Bson.M) (c : Collection) : result D :=
  match find (matches filter) c with
  | Some d => Ok d
  | None => Err ErrNoDocuments
  end.

(** [Find(ctx, filter)] followed by [cursor.All]. *)
Definition Find (filter : Bson.M) (c : Collection) : list D :=
  List.filter (matches filter) c.

(** [InsertOne(ctx, doc)].  A zero [_id] is dropped by [omitempty] and the
    driver supplies [generated] in its place; an [_id] already present in
    the collection is a duplicate-key write error. *)
Definition InsertOne (generated : ObjectID) (doc : D) (c : Collection)
  : result InsertOneResult * Collection :=
  let doc' := if IsZero (doc_id doc) then with_id generated doc else doc in
  if existsb (fun x => oid_eqb (doc_id x) (doc_id doc')) c
  then (Err DuplicateKey, c)
  else (Ok {| InsertedID := doc_id doc' |}, c ++ [doc']).

(** The document [$set] leaves behind when its operand is a whole struct:
    every element of the struct is written; a zero [_id] is omitted, and a
    different [_id] is refused. *)
Definition apply_set (set old : D) : result D :=
  if IsZero (doc_id set) then Ok (with_id (doc_id old) set)
  else if oid_eqb (doc_id set) (doc_id old) then Ok set
  else Err ImmutableField.

(** [UpdateOne(ctx, filter, bson.M{"$set": set})]: the first match only. *)
Fixpoint UpdateOne (filter : Bson.M) (set : D) (c : Collection)
  : result UpdateResult * Collection :=
  match c with
  | [] => (Ok {| MatchedCount := 0 |}, [])
  | d :: r =>
      if matches filter d then
        match apply_set set d with
        | Ok d' => (Ok {| MatchedCount := 1 |}, d' :: r)
        | Err e => (Err e, d :: r)
        end
      else
        let '(res, r') := UpdateOne filter set r in (res, d :: r')
  end.

(** [DeleteOne(ctx, filter)]: the first match only. *)
Fixpoint DeleteOne (filter : Bson.M) (c : Collection)
  : result DeleteResult * Collection :=
  match c with
  | [] => (Ok {| DeletedCount := 0 |}, [])
  | d :: r =>
      if matches filter d then (Ok {| DeletedCount := 1 |}, r)
      else let '(res, r') := DeleteOne filter r in (res, d :: r')
  end.

End Collection.

(** The filter documents the handlers build. *)

Definition by_username (username : string) : Bson.M :=
  [("username", Bson.StringValue username)].

Definition by_id_and_owner (id owner : ObjectID) : Bson.M :=
  [("_id", Bson.ObjectIDValue id); ("userId", Bson.ObjectIDValue owner)].

(** The tasks of everybody but [owner]. *)
Definition others (owner : ObjectID) (t : Task) : bool :=
  negb (oid_eqb (Task.UserID t) owner).

(** The tasks of [owner]. *)
Definition owned_by (owner : ObjectID) (t : Task) : bool :=
  oid_eqb (Task.UserID t) owner.

End Mongo.

(* ================================================================== *)
(** ** golang.org/x/crypto/bcrypt *)

Module Bcrypt.

(** The two entry points the service uses.  [GenerateFromPassword] takes
    the salt it would draw at random and yields [None] where the library
    returns an error; [CompareHashAndPassword] is [true] where the library
    returns a nil error.  Their contract: a hash the library produced for a
    password verifies against that password. *)
Class Bcrypt := {
  GenerateFromPassword : string -> Z -> string -> option string;
  CompareHashAndPassword : string -> string -> bool;
  compare_generated :
    forall password cost salt hash,
      GenerateFromPassword password cost salt = Some hash ->
      CompareHashAndPassword hash password = true;
}.

End Bcrypt.

(* ================================================================== *)
(** ** github.com/golang-jwt/jwt/v4 *)

Module JWT.
Import Time.

(** The values a decoded claims object holds.  JSON numbers are carried
    as whole seconds. *)
Inductive ClaimValue :=
| Null
| Str (s : string)
| Num (n : Z)
| Boolean (b : bool).

(** [type MapClaims map[string]interface{}] *)
Definition MapClaims := list (string * ClaimValue).

(** [v, ok := m[k]] *)
Fixpoint lookup (k : string) (m : MapClaims) : option ClaimValue :=
  match m with
  | [] => None
  | (k', v) :: r => if String.eqb k k' then Some v else lookup k r
  end.

(** [m[k]] : the nil interface when the key is absent. *)
Definition index (m : MapClaims) (k : string) : ClaimValue :=
  match lookup k m with Some v => v | None => Null end.

Inductive SigningMethod :=
| SigningMethodHMAC (alg : string)
| SigningMethodOther (alg : string).

Definition SigningMethodHS256 : SigningMethod := SigningMethodHMAC "HS256".

Definition one_of (a : string) (l : list string) : bool :=
  existsb (String.eqb a) l.

(** [GetSigningMethod]: the methods the package registers. *)
Definition GetSigningMethod (alg : string) : option SigningMethod :=
  if one_of alg ["HS256"; "HS384"; "HS512"] then Some (SigningMethodHMAC alg)
  else if one_of alg ["RS256"; "RS384"; "RS512"; "PS256"; "PS384"; "PS512";
                      "ES256"; "ES384"; "ES512"; "EdDSA"; "none"]
       then Some (SigningMethodOther alg)
  else None.

(** The keyed hash behind the HS* methods: the encoded signature of the
    signing string that carries header algorithm [alg] and [claims], under
    [key]. *)
Class Signer := {
  hmac : string -> string -> MapClaims -> string;
}.

(** A token on the wire.  [Compact] is a three-segment compact
    serialization, identified with the header algorithm, the claims and
    the signature segment it decodes to; [Opaque] is any other header text
    ([Opaque ""] is the empty string). *)
Inductive TokenString :=
| Compact (alg : string) (claims : MapClaims) (signature : string)
| Opaque (text : string).

Definition is_empty (t : TokenString) : bool :=
  match t with Opaque s => is_blank s | Compact _ _ _ => false end.

(** [type Token struct] *)
Record Token := {
  Method : SigningMethod;
  Claims : MapClaims;
  Signature : string;
  Valid : bool;
}.

(** [NewWithClaims(method, claims)] *)
Definition NewWithClaims (m : SigningMethod) (claims : MapClaims) : Token :=
  {| Method := m; Claims := claims; Signature := ""; Valid := false |}.

(** [func (t *Token) SignedString(key)].  With a byte-slice key the HS*
    methods always sign; any other method refuses such a key. *)
Definition SignedString `{Signer} (t : Token) (key : string) : option TokenString :=
  match Method t with
  | SigningMethodHMAC a => Some (Compact a (Claims t) (hmac a key (Claims t)))
  | SigningMethodOther _ => None
  end.

(** The bits of [ValidationError.Errors]. *)
Definition ValidationErrorMalformed : Z := Z.shiftl 1 0.
Definition ValidationErrorUnverifiable : Z := Z.shiftl 1 1.
Definition ValidationErrorSignatureInvalid : Z := Z.shiftl 1 2.
Definition ValidationErrorExpired : Z := Z.shiftl 1 4.
Definition ValidationErrorIssuedAt : Z := Z.shiftl 1 5.
Definition ValidationErrorNotValidYet : Z := Z.shiftl 1 7.

Record ValidationError := { Errors : Z }.

(** [errors.Is(err, ErrTokenExpired)] *)
Definition IsExpired (e : option ValidationError) : bool :=
  match e with
  | Some v => negb (Z.land (Errors v) ValidationErrorExpired =? 0)
  | None => false
  end.

(** [verifyExp] (claims.go, v4.5): [if exp == nil { return !required }]
    and otherwise [now.Before( *exp )]: valid strictly before the expiry. *)
Definition verifyExp (exp : option Z) (now : Z) (required : bool) : bool :=
  match exp with
  | None => negb required
  | Some e => now <? e
  end.

(** [verifyIat] and [verifyNbf]: [now.After(x) || now.Equal(x)], valid at
    or after the instant. *)
Definition verifyIat (iat : option Z) (now : Z) (required : bool) : bool :=
  match iat with
  | None => negb required
  | Some i => i <=? now
  end.

Definition verifyNbf (nbf : option Z) (now : Z) (required : bool) : bool :=
  match nbf with
  | None => negb required
  | Some n => n <=? now
  end.

(** The shared shape of [MapClaims.VerifyExpiresAt], [VerifyIssuedAt] and
    [VerifyNotBefore] (map_claims.go): [v, ok := m[k]; if !ok { return !req }],
    then on a number [if exp == 0 { return verifyExp(nil, cmpTime, req) }]
    and otherwise the comparison; any other type of value returns false.
    So an absent claim passes unless required, a numeric zero counts as
    absent, and a non-numeric claim fails. *)
Definition verifyClaim (check : option Z -> Z -> bool -> bool)
  (m : MapClaims) (k : string) (cmp : Z) (req : bool) : bool :=
  match lookup k m with
  | None => negb req
  | Some (Num n) => if n =? 0 then check None cmp req else check (Some n) cmp req
  | Some _ => false
  end.

Definition VerifyExpiresAt (m : MapClaims) (cmp : Z) (req : bool) : bool :=
  verifyClaim verifyExp m "exp" cmp req.
Definition VerifyIssuedAt (m : MapClaims) (cmp : Z) (req : bool) : bool :=
  verifyClaim verifyIat m "iat" cmp req.
Definition VerifyNotBefore (m : MapClaims) (cmp : Z) (req : bool) : bool :=
  verifyClaim verifyNbf m "nbf" cmp req.

(** [func (m MapClaims) Valid() error], as the accumulated error bits
    (zero for a nil error); [t] is what [TimeFunc()] returns. *)
Definition MapClaims_Valid (t : Time) (m : MapClaims) : Z :=
  let now := Unix t in
  let e0 := 0 in
  let e1 := if VerifyExpiresAt m now false then e0
            else Z.lor e0 ValidationErrorExpired in
  let e2 := if VerifyIssuedAt m now false then e1
            else Z.lor e1 ValidationErrorIssuedAt in
  let e3 := if VerifyNotBefore m now false then e2
            else Z.lor e2 ValidationErrorNotValidYet in
  e3.

(** [SigningMethodHMAC.Verify]: recompute and compare. *)
Definition Verify `{Signer} (m : SigningMethod) (claims : MapClaims)
  (signature key : string) : bool :=
  match m with
  | SigningMethodHMAC a => String.eqb (hmac a key claims) signature
  | SigningMethodOther _ => false
  end.

(** [jwt.Parse(tokenString, keyFunc)], returning the token and the error:
    decode, look the method up, ask [keyFunc] for the key, validate the
    claims, verify the signature, and accept when no error bit is set.
    [keyFunc] yields [None] where the Go callback returns an error.  The
    token handed back next to an error is one the service never reads. *)
Definition Parse `{Signer} (t : Time) (tokenString : TokenString)
  (keyFunc : Token -> option string) : option Token * option ValidationError :=
  match tokenString with
  | Opaque _ => (None, Some {| Errors := ValidationErrorMalformed |})
  | Compact alg claims signature =>
      match GetSigningMethod alg with
      | None => (None, Some {| Errors := ValidationErrorUnverifiable |})
      | Some m =>
          let token := NewWithClaims m claims in
          match keyFunc token with
          | None => (Some token, Some {| Errors := ValidationErrorUnverifiable |})
          | Some key =>
              let vErr := MapClaims_Valid t claims in
              let vErr := if Verify m claims signature key then vErr
                          else Z.lor vErr ValidationErrorSignatureInvalid in
              let token := {| Method := m; Claims := claims;
                              Signature := signature; Valid := false |} in
              if vErr =? 0 then
                (Some {| Method := m; Claims := claims;
                         Signature := signature; Valid := true |}, None)
              else (Some token, Some {| Errors := vErr |})
          end
      end
  end.

End JWT.

(* ================================================================== *)
(** ** github.com/gofiber/fiber/v2 *)

Module Fiber.
Import Primitive Models.

Definition StatusOK : Z := 200.
Definition StatusCreated : Z := 201.
Definition StatusNoContent : Z := 204.
Definition StatusBadRequest : Z := 400.
Definition StatusUnauthorized : Z := 401.
Definition StatusNotFound : Z := 404.
Definition StatusInternalServerError : Z := 500.

(** What [c.Locals] can hold in this service: a claim value (an
    [interface{}] taken out of the claims, [Null] for nil) or a parsed
    token. *)
Inductive Local :=
| LocalClaim (v : JWT.ClaimValue)
| LocalToken (t : JWT.Token).

(** The parts of [*fiber.Ctx] the handlers read.  [BodyUser] and
    [BodyTask] are what [c.BodyParser] decodes the request body to as a
    [models.User] and as a [models.Task]; [None] is a parse error. *)
Record Ctx := {
  Authorization : JWT.TokenString;
  ParamID : string;
  BodyUser : option User;
  BodyTask : option Task;
  Locals : list (string * Local);
}.

(** [c.Locals(key)] *)
Fixpoint locals_get (key : string) (l : list (string * Local)) : Local :=
  match l with
  | [] => LocalClaim JWT.Null
  | (k, v) :: r => if String.eqb key k then v else locals_get key r
  end.

Definition GetLocal (c : Ctx) (key : string) : Local := locals_get key (Locals c).

(** [c.Locals(key, value)] *)
Definition SetLocal (c : Ctx) (key : string) (v : Local) : Ctx :=
  {| Authorization := Authorization c; ParamID := ParamID c;
     BodyUser := BodyUser c; BodyTask := BodyTask c;
     Locals := (key, v) :: Locals c |}.

(** [fiber.Map] with string values, or one of the structs, encoded by
    [c.JSON]. *)
Inductive Body :=
| Map (m : list (string * string))
| TokenMap (key : string) (t : JWT.TokenString)
| UserJSON (u : User)
| TaskJSON (t : Task)
| TasksJSON (l : list Task)
| Empty.

Record Response := { StatusCode : Z; Payload : Body }.

(** [c.Status(code).JSON(v)] *)
Definition JSON (code : Z) (v : Body) : Response :=
  {| StatusCode := code; Payload := v |}.

(** How a handler in the chain ends: it answered, it called [c.Next()],
    or it panicked. *)
Inductive Handled :=
| Respond (r : Response)
| Next (c : Ctx)
| Panic.

(** The status code the client sees, when the handler answered. *)
Definition status_of (h : Handled) : option Z :=
  match h with
  | Respond r => Some (StatusCode r)
  | Next _ | Panic => None
  end.

(** The same request with another decoded task body. *)
Definition with_BodyTask (c : Ctx) (b : Task) : Ctx :=
  {| Authorization := Authorization c; ParamID := ParamID c;
     BodyUser := BodyUser c; BodyTask := Some b; Locals := Locals c |}.

End Fiber.

(* ================================================================== *)
(** ** database and the request environment *)

Module Database.
Import Models.

(** The package-level collection handles. *)
Record Database := {
  UsersCollection : list User;
  TasksCollection : list Task;
}.

Definition with_users (db : Database) (u : list User) : Database :=
  {| UsersCollection := u; TasksCollection := TasksCollection db |}.

Definition with_tasks (db : Database) (t : list Task) : Database :=
  {| UsersCollection := UsersCollection db; TasksCollection := t |}.

End Database.

(** What one request reads from outside the process: the clock
    ([time.Now()], also [jwt.TimeFunc]), the identifier
    [primitive.NewObjectID()] returns, the identifier the driver assigns to
    a document inserted without [_id], and bcrypt's random salt. *)
Record Env := {
  Now : Time.Time;
  NewObjectID : Primitive.ObjectID;
  DriverObjectID : Primitive.ObjectID;
  Salt : string;
}.

(* ================================================================== *)
(** ** utils *)

Module Utils.
Import Fiber.

Section WithLibraries.
Context `{Bcrypt.Bcrypt} `{JWT.Signer}.

(** [func HashPassword(password string) string]: the error is dropped, so
    a failed hash is the empty string. *)
Definition HashPassword (env : Env) (password : string) : string :=
  match Bcrypt.GenerateFromPassword password 14 (Salt env) with
  | Some hashedPassword => hashedPassword
  | None => ""
  end.

(** [func CheckPasswordHash(password, hash string) bool] *)
Definition CheckPasswordHash (password hash : string) : bool :=
  Bcrypt.CompareHashAndPassword hash password.

(** The key function [JWTMiddleware] hands to [jwt.Parse]. *)
Definition keyFunc (secret : string) (token : JWT.Token) : option string :=
  match JWT.Method token with
  | JWT.SigningMethodHMAC _ => Some secret
  | JWT.SigningMethodOther _ => None
  end.

(** [func JWTMiddleware(secret string) fiber.Handler] *)
Definition JWTMiddleware (secret : string) (env : Env) (c : Ctx) : Handled :=
  let tokenString := Authorization c in
  if JWT.is_empty tokenString then
    Respond (JSON StatusUnauthorized (Map [("error", "missing or malformed JWT")]))
  else
    match JWT.Parse (Now env) tokenString (keyFunc secret) with
    | (_, Some _) =>
        Respond (JSON StatusUnauthorized (Map [("error", "invalid JWT")]))
    | (None, None) => Panic
    | (Some token, None) =>
        if JWT.Valid token then
          Next (SetLocal c "userId"
                  (LocalClaim (JWT.index (JWT.Claims token) "userId")))
        else
          Respond (JSON StatusUnauthorized (Map [("error", "invalid JWT")]))
    end.

End WithLibraries.

End Utils.

(* ================================================================== *)
(** ** middleware *)

Module Middleware.
Import Fiber.

(** The [SuccessHandler] of [Protected]: the validated token is under
    ["user"]; its ["userId"] claim, asserted to be a string, goes under
    ["userId"]. *)
Definition SuccessHandler (c : Ctx) : Handled :=
  match GetLocal c "user" with
  | LocalToken user =>
      let claims := JWT.Claims user in
      match JWT.index claims "userId" with
      | JWT.Str s => Next (SetLocal c "userId" (LocalClaim (JWT.Str s)))
      | _ => Panic
      end
  | LocalClaim _ => Panic
  end.

(** The [ErrorHandler] of [Protected]; [err] tells whether the error it
    is called with is non-nil. *)
Definition ErrorHandler (c : Ctx) (err : bool) : Handled :=
  if err then Respond (JSON StatusUnauthorized (Map [("error", "unauthorized")]))
  else Next c.

End Middleware.

(* ================================================================== *)
(** ** handlers *)

Module Handlers.
Import Primitive Models Mongo Fiber Database.

Definition error (code : Z) (msg : string) : Handled :=
  Respond (JSON code (Map [("error", msg)])).

(** [c.Locals("userId").(string)]: [None] is the failed type assertion. *)
Definition userId_of (c : Ctx) : option string :=
  match GetLocal c "userId" with
  | LocalClaim (JWT.Str s) => Some s
  | _ => None
  end.

Definition set_Password (u : User) (p : string) : User :=
  {| User.ID := User.ID u; User.Username := User.Username u; User.Password := p |}.

Definition set_ID (u : User) (i : ObjectID) : User :=
  {| User.ID := i; User.Username := User.Username u; User.Password := User.Password u |}.

Section WithLibraries.
Context `{Bcrypt.Bcrypt} `{JWT.Signer}.

(** [func SignUp(c *fiber.Ctx) error] *)
Definition SignUp (env : Env) (c : Ctx) (db : Database) : Handled * Database :=
  match BodyUser c with
  | None => (error StatusBadRequest "cannot parse JSON", db)
  | Some user =>
      let '(existingUser, err) :=
        match Mongo.FindOne [("username", Bson.StringValue (User.Username user))]
                (UsersCollection db) with
        | Mongo.Ok u => (u, None)
        | Mongo.Err e => (zeroUser, Some e)
        end in
      if match err with
         | None => false
         | Some Mongo.ErrNoDocuments => false
         | Some _ => true
         end
      then (error StatusInternalServerError "internal server error", db)
      else if negb (is_blank (User.Username existingUser))
      then (error StatusBadRequest "username already taken", db)
      else
        let user := set_Password user (Utils.HashPassword env (User.Password user)) in
        match Mongo.InsertOne (DriverObjectID env) user (UsersCollection db) with
        | (Mongo.Err _, users) =>
            (error StatusInternalServerError "could not create user",
             with_users db users)
        | (Mongo.Ok result, users) =>
            let user := set_ID user (Mongo.InsertedID result) in
            (Respond (JSON StatusCreated (UserJSON user)), with_users db users)
        end
  end.

(** [func SignIn(jwtSecret string, tokenExpiryTime int) fiber.Handler] *)
Definition SignIn (jwtSecret : string) (tokenExpiryTime : Z)
  (env : Env) (c : Ctx) (db : Database) : Handled * Database :=
  match BodyUser c with
  | None => (error StatusBadRequest "cannot parse JSON", db)
  | Some user =>
      if is_blank (User.Username user) || is_blank (User.Password user)
      then (error StatusBadRequest "username and password should not be blank!", db)
      else
        match Mongo.FindOne [("username", Bson.StringValue (User.Username user))]
                (UsersCollection db) with
        | Mongo.Err Mongo.ErrNoDocuments =>
            (error StatusUnauthorized "invalid credentials", db)
        | Mongo.Err _ =>
            (error StatusInternalServerError "internal server error", db)
        | Mongo.Ok foundUser =>
            if negb (Utils.CheckPasswordHash (User.Password user)
                       (User.Password foundUser))
            then (error StatusUnauthorized "invalid credentials", db)
            else
              let claims : JWT.MapClaims :=
                [("userId", JWT.Str (Hex (User.ID foundUser)));
                 ("exp", JWT.Num (Time.Unix
                                    (Time.Add (Now env)
                                       (Time.Seconds tokenExpiryTime))))] in
              let token := JWT.NewWithClaims JWT.SigningMethodHS256 claims in
              match JWT.SignedString token jwtSecret with
              | None =>
                  (error StatusInternalServerError "could not generate token", db)
              | Some tokenString =>
                  (Respond (JSON StatusOK (TokenMap "token" tokenString)), db)
              end
        end
  end.

(** [func SignOut(c *fiber.Ctx) error] *)
Definition SignOut (c : Ctx) (db : Database) : Handled * Database :=
  (Respond (JSON StatusOK (Map [("message", "signed out")])), db).

End WithLibraries.

(** The four fields [CreateTask] overwrites. *)
Definition server_set (task : Task) (id owner : ObjectID) (start : DateTime)
  (status : string) : Task :=
  {| Task.ID := id; Task.UserID := owner; Task.Title := Task.Title task;
     Task.Description := Task.Description task;
     Task.AllottedTo := Task.AllottedTo task; Task.DoneBy := Task.DoneBy task;
     Task.Status := status; Task.StartDate := start;
     Task.EndDate := Task.EndDate task |}.

(** The two fields [UpdateTask] overwrites. *)
Definition force_ids (task : Task) (id owner : ObjectID) : Task :=
  server_set task id owner (Task.StartDate task) (Task.Status task).

(** [func CreateTask(c *fiber.Ctx) error] *)
Definition CreateTask (env : Env) (c : Ctx) (db : Database) : Handled * Database :=
  match userId_of c with
  | None => (Panic, db)
  | Some userId =>
      match BodyTask c with
      | None => (error StatusBadRequest "Cannot parse JSON", db)
      | Some task =>
          match Mongo.FindOne [("username", Bson.StringValue (Task.AllottedTo task))]
                  (UsersCollection db) with
          | Mongo.Err Mongo.ErrNoDocuments =>
              (error StatusBadRequest "Allotted user does not exist", db)
          | Mongo.Err _ =>
              (error StatusInternalServerError "Error checking allotted user", db)
          | Mongo.Ok _ =>
              let task :=
                server_set task (NewObjectID env) (fst (ObjectIDFromHex userId))
                  (Time.NewDateTimeFromTime (Now env)) "Pending" in
              match Mongo.InsertOne (DriverObjectID env) task (TasksCollection db) with
              | (Mongo.Err _, tasks) =>
                  (error StatusInternalServerError "Could not create task",
                   with_tasks db tasks)
              | (Mongo.Ok _, tasks) =>
                  (Respond (JSON StatusCreated (TaskJSON task)), with_tasks db tasks)
              end
          end
      end
  end.

(** [func GetTasks(c *fiber.Ctx) error] *)
Definition GetTasks (c : Ctx) (db : Database) : Handled * Database :=
  match userId_of c with
  | None => (Panic, db)
  | Some userId =>
      match ObjectIDFromHex userId with
      | (_, Some _) => (error StatusInternalServerError "Invalid user ID", db)
      | (userObjectId, None) =>
          let filter := [("userId", Bson.ObjectIDValue userObjectId)] in
          let tasks := Mongo.Find filter (TasksCollection db) in
          (Respond (JSON StatusOK (TasksJSON tasks)), db)
      end
  end.

(** [func GetTask(c *fiber.Ctx) error] *)
Definition GetTask (c : Ctx) (db : Database) : Handled * Database :=
  match userId_of c with
  | None => (Panic, db)
  | Some userId =>
      let taskId := ParamID c in
      match ObjectIDFromHex taskId with
      | (_, Some _) => (error StatusBadRequest "Invalid task ID", db)
      | (taskIdHex, None) =>
          let userIdHex := fst (ObjectIDFromHex userId) in
          match Mongo.FindOne [("_id", Bson.ObjectIDValue taskIdHex);
                               ("userId", Bson.ObjectIDValue userIdHex)]
                  (TasksCollection db) with
          | Mongo.Err _ => (error StatusNotFound "Task not found", db)
          | Mongo.Ok task => (Respond (JSON StatusOK (TaskJSON task)), db)
          end
      end
  end.

(** [func UpdateTask(c *fiber.Ctx) error] *)
Definition UpdateTask (c : Ctx) (db : Database) : Handled * Database :=
  match userId_of c with
  | None => (Panic, db)
  | Some userId =>
      let taskId := ParamID c in
      match ObjectIDFromHex taskId with
      | (_, Some _) => (error StatusBadRequest "Invalid task ID", db)
      | (taskIdHex, None) =>
          let userIdHex := fst (ObjectIDFromHex userId) in
          match BodyTask c with
          | None => (error StatusBadRequest "Cannot parse JSON", db)
          | Some task =>
              let task := force_ids task taskIdHex userIdHex in
              match Mongo.UpdateOne [("_id", Bson.ObjectIDValue taskIdHex);
                                     ("userId", Bson.ObjectIDValue userIdHex)]
                      task (TasksCollection db) with
              | (Mongo.Err _, tasks) =>
                  (error StatusInternalServerError "Could not update task",
                   with_tasks db tasks)
              | (Mongo.Ok result, tasks) =>
                  if Mongo.MatchedCount result =? 0
                  then (error StatusNotFound "Task not found", with_tasks db tasks)
                  else (Respond (JSON StatusOK (TaskJSON task)), with_tasks db tasks)
              end
          end
      end
  end.

(** [func DeleteTask(c *fiber.Ctx) error] *)
Definition DeleteTask (c : Ctx) (db : Database) : Handled * Database :=
  match userId_of c with
  | None => (Panic, db)
  | Some userId =>
      let taskId := ParamID c in
      match ObjectIDFromHex taskId with
      | (_, Some _) => (error StatusBadRequest "Invalid task ID", db)
      | (taskIdHex, None) =>
          let userIdHex := fst (ObjectIDFromHex userId) in
          let filter := [("_id", Bson.ObjectIDValue taskIdHex);
                         ("userId", Bson.ObjectIDValue userIdHex)] in
          match Mongo.DeleteOne filter (TasksCollection db) with
          | (Mongo.Err _, tasks) =>
              (error StatusInternalServerError "Could not delete task",
               with_tasks db tasks)
          | (Mongo.Ok result, tasks) =>
              if Mongo.DeletedCount result =? 0
              then (error StatusNotFound "Task not found", with_tasks db tasks)
              else (Respond (JSON StatusNoContent Empty), with_tasks db tasks)
          end
      end
  end.

End Handlers.

(* ================================================================== *)
(** ** The task routes *)

Module Routes.
Import Fiber Database.

(** A handler at the end of a chain, and a middleware in front of it. *)
Definition Handler := Env -> Ctx -> Database -> Handled * Database.
Definition Middleware := Env -> Ctx -> Handled.

(** The chain [app.Method(path, mw, h)] registers: [h] runs only when
    [mw] calls [c.Next()], on the context [mw] leaves behind; what [mw]
    answers otherwise is the answer. *)
Definition chain (mw : Middleware) (h : Handler) : Handler :=
  fun env c db =>
    match mw env c with
    | Next c' => h env c' db
    | Respond r => (Respond r, db)
    | Panic => (Panic, db)
    end.

Section WithLibraries.
Context `{JWT.Signer}.


Definition GetTasks (jwtSecret : string) : Handler :=
  chain (Utils.JWTMiddleware jwtSecret) (fun _ => Handlers.GetTasks).

Definition GetTask (jwtSecret : string) : Handler :=
  chain (Utils.JWTMiddleware jwtSecret) (fun _ => Handlers.GetTask).


Definition DeleteTask (jwtSecret : string) : Handler :=
  chain (Utils.JWTMiddleware jwtSecret) (fun _ => Handlers.DeleteTask).

End WithLibraries.

End Routes.

(* ================================================================== *)
(** ** Statement vocabulary and example data *)

Module Identity.
Import Primitive Models Mongo Database.

(** The two ways the credentials [u] can be wrong against [db]: nobody
    carries the username, or the first record that does has a hash the
    password does not verify against. *)
Inductive BadCredentials `{Bcrypt.Bcrypt} (u : User) (db : Database) : Prop :=
| UnknownUsername :
    (forall v, In v (UsersCollection db) -> User.Username v <> User.Username u) ->
    BadCredentials u db
| WrongPassword (foundUser : User) :
    FindOne (by_username (User.Username u)) (UsersCollection db) = Ok foundUser ->
    Utils.CheckPasswordHash (User.Password u) (User.Password foundUser) = false ->
    BadCredentials u db.

(** The claims [SignIn] puts in a token. *)
Definition issued_claims (subject : string) (expiry : Z) : JWT.MapClaims :=
  [("userId", JWT.Str subject); ("exp", JWT.Num expiry)].

End Identity.

Module Demo.
Import Primitive Models Fiber Database.

Definition aliceID : ObjectID := repeat xa1 12.
Definition bobID : ObjectID := repeat xb0 12.
Definition taskID : ObjectID := repeat x7e 12.
Definition freshID : ObjectID := repeat x0f 12.

Definition alice : User :=
  {| User.ID := aliceID; User.Username := "alice"; User.Password := "$2a$14$pw1" |}.

(** A task that belongs to bob. *)
Definition bobsTask : Task :=
  {| Task.ID := taskID; Task.UserID := bobID; Task.Title := "T";
     Task.Description := "D"; Task.AllottedTo := "alice"; Task.DoneBy := "";
     Task.Status := "Pending"; Task.StartDate := 1719792000000;
     Task.EndDate := 1719878400000 |}.

(** A request body that names another identifier and another owner. *)
Definition body : Task :=
  {| Task.ID := freshID; Task.UserID := aliceID; Task.Title := "Updated";
     Task.Description := "D2"; Task.AllottedTo := "alice"; Task.DoneBy := "bob";
     Task.Status := "Done"; Task.StartDate := 5; Task.EndDate := 7 |}.

Definition db0 : Database :=
  {| UsersCollection := [alice]; TasksCollection := [bobsTask] |}.

(** A context past the middleware: [userId] is set, the route parameter is
    [id], the body decodes to [b]. *)
Definition authed (userId id : string) (b : option Task) : Ctx :=
  {| Authorization := JWT.Opaque ""; ParamID := id; BodyUser := None;
     BodyTask := b; Locals := [("userId", LocalClaim (JWT.Str userId))] |}.

Definition aliceOnBobsTask : Ctx :=
  authed (Hex aliceID) (Hex taskID) (Some body).

Definition bobOnBobsTask : Ctx :=
  authed (Hex bobID) (Hex taskID) (Some body).

Definition malformedPath : Ctx :=
  authed (Hex aliceID) "not-an-id" None.

(** Creating a task as alice, and with a user identifier that is not an
    object identifier. *)
Definition aliceCreates : Ctx := authed (Hex aliceID) "" (Some body).

Definition strangerCreates : Ctx := authed "guest" "" (Some body).

(** A body whose assignee nobody is registered as. *)
Definition orphanBody : Task :=
  {| Task.ID := NilObjectID; Task.UserID := NilObjectID; Task.Title := "T";
     Task.Description := "D"; Task.AllottedTo := "carol"; Task.DoneBy := "";
     Task.Status := ""; Task.StartDate := 0; Task.EndDate := 0 |}.

Definition aliceCreatesOrphan : Ctx := authed (Hex aliceID) "" (Some orphanBody).

Definition env0 : Env :=
  {| Now := 1719792000123456789; NewObjectID := freshID;
     DriverObjectID := repeat xd1 12; Salt := "salt" |}.

(** Sign-up and sign-in requests carrying a decoded credentials body. *)
Definition credentials (username password : string) : Ctx :=
  {| Authorization := JWT.Opaque ""; ParamID := ""; 
     BodyUser := Some {| User.ID := NilObjectID; User.Username := username;
                         User.Password := password |};
     BodyTask := None; Locals := [] |}.

(** A request that presents [t] in its [Authorization] header. *)
Definition bearing (t : JWT.TokenString) : Ctx :=
  {| Authorization := t; ParamID := ""; BodyUser := None; BodyTask := None;
     Locals := [] |}.

(** A user registered under the blank username. *)
Definition nameless : User :=
  {| User.ID := bobID; User.Username := ""; User.Password := "$2a$14$x" |}.

Definition dbNameless : Database :=
  {| UsersCollection := [nameless]; TasksCollection := [] |}.

(** Registering dave, with a password and without one. *)
Definition dave : User :=
  {| User.ID := NilObjectID; User.Username := "dave"; User.Password := "pw2" |}.

Definition daveSigns : Ctx := credentials "dave" "pw2".

Definition daveNoPassword : Ctx := credentials "dave" EmptyString.

Definition at_seconds (s : Z) : Env :=
  {| Now := s * 1000000000; NewObjectID := freshID;
     DriverObjectID := repeat xd1 12; Salt := "salt" |}.

(** Stand-ins for the two libraries, to run the handlers on examples: a
    hash that prefixes the password and a signature that joins key and
    algorithm. *)
Definition demoGenerate (password : string) (cost : Z) (salt : string)
  : option string := Some (String.append "$2a$14$" password).

Definition demoCompare (hash password : string) : bool :=
  String.eqb hash (String.append "$2a$14$" password).

Definition demoBcrypt : Bcrypt.Bcrypt :=
  {| Bcrypt.GenerateFromPassword := demoGenerate;
     Bcrypt.CompareHashAndPassword := demoCompare;
     Bcrypt.compare_generated :=
       fun password cost salt hash
           (E : demoGenerate password cost salt = Some hash) =>
         match E in (_ = produced)
               return match produced with
                      | Some h => demoCompare h password = true
                      | None => True
                      end
         with
         | eq_refl => String.eqb_refl (String.append "$2a$14$" password)
         end |}.

Definition demoSigner : JWT.Signer :=
  {| JWT.hmac alg key claims := String.append key (String.append "/" alg) |}.

(** The token a sign-in of alice under ["secret"] yields when it expires
    at second 1719795600. *)
Definition aliceToken : JWT.TokenString :=
  JWT.Compact "HS256" (Identity.issued_claims (Hex aliceID) 1719795600)
    (@JWT.hmac demoSigner "HS256" "secret"
       (Identity.issued_claims (Hex aliceID) 1719795600)).

End Demo.

Module Vocabulary.
Import Primitive Models Fiber Database.

(** No two stored users share a username, the blank username apart. *)
Definition distinct_usernames (users : list User) : Prop :=
  NoDup (filter (fun name => negb (is_blank name)) (map User.Username users)).

(** The identifier a sign-up body ends up stored under: its own when it
    carries one, the driver's otherwise. *)
Definition effective_id (env : Env) (user : User) : ObjectID :=
  if IsZero (User.ID user) then DriverObjectID env else User.ID user.

(** What [JWTMiddleware] demands of a request: a compact token under one
    of the three HMAC algorithms, whose signature is the keyed hash of its
    claims under the secret, and whose time claims hold at the clock. *)
Definition accepted `{JWT.Signer} (secret : string) (env : Env) (c : Ctx)
  (alg : string) (claims : JWT.MapClaims) : Prop :=
  Authorization c = JWT.Compact alg claims (JWT.hmac alg secret claims)
  /\ (alg = "HS256" \/ alg = "HS384" \/ alg = "HS512")
  /\ JWT.VerifyExpiresAt claims (Time.Unix (Now env)) false = true
  /\ JWT.VerifyIssuedAt claims (Time.Unix (Now env)) false = true
  /\ JWT.VerifyNotBefore claims (Time.Unix (Now env)) false = true.

End Vocabulary.

Module Scenarios.
Import Primitive Models Fiber Database Demo.

(** Bob listing his tasks, and a caller whose user identifier string is
    not an object identifier doing the same. *)
Definition bobLists : Ctx := authed (Hex bobID) "" None.

Definition strangerLists : Ctx := authed "guest" "" None.

(** A second task of bob, after the first. *)
Definition bobsSecondTask : Task :=
  {| Task.ID := repeat x7f 12; Task.UserID := bobID; Task.Title := "T2";
     Task.Description := "D"; Task.AllottedTo := "alice"; Task.DoneBy := "";
     Task.Status := "Pending"; Task.StartDate := 1719792000001;
     Task.EndDate := 1719878400000 |}.

(** A first task that belongs to alice, before bob's. *)
Definition alicesTask : Task :=
  {| Task.ID := repeat x7d 12; Task.UserID := aliceID; Task.Title := "A";
     Task.Description := "D"; Task.AllottedTo := "alice"; Task.DoneBy := "";
     Task.Status := "Pending"; Task.StartDate := 1719792000002;
     Task.EndDate := 1719878400000 |}.

Definition db3 : Database :=
  {| UsersCollection := [alice];
     TasksCollection := [alicesTask; bobsTask; bobsSecondTask] |}.

(** Bob addressing his first task, with the body [body] and with a body
    that does not decode. *)
Definition bobUndecodable : Ctx := authed (Hex bobID) (Hex taskID) None.

Definition bobMalformedPath : Ctx := authed (Hex bobID) "7e" (Some body).

(** Reading back the task [env0] would create. *)
Definition aliceReadsFresh : Ctx := authed (Hex aliceID) (Hex freshID) None.

(** Erin signing up with a body that carries alice's identifier. *)
Definition erinTakesAlicesID : Ctx :=
  {| Authorization := JWT.Opaque EmptyString; ParamID := EmptyString;
     BodyUser := Some {| User.ID := aliceID; User.Username := "erin";
                         User.Password := "pw3" |};
     BodyTask := None; Locals := [] |}.

Definition erin : User :=
  {| User.ID := aliceID; User.Username := "erin"; User.Password := "pw3" |}.






End Scenarios.

(* ================================================================== *)
(** * Properties *)

(** ** Identifiers and their hexadecimal form *)

Module PrimitiveFacts.
Import Primitive.

Lemma chars_of_chars (l : list ascii) : chars (of_chars l) = l.
Proof. induction l as [|a l IH]; simpl; [reflexivity | now rewrite IH]. Qed.

Lemma length_of_chars (l : list ascii) : String.length (of_chars l) = List.length l.
Proof. induction l as [|a l IH]; simpl; [reflexivity | now rewrite IH]. Qed.

Lemma length_chars (s : string) : List.length (chars s) = String.length s.
Proof. induction s as [|a s IH]; simpl; [reflexivity | now rewrite IH]. Qed.

Lemma byte_eqb_eq (x y : byte) : Byte.eqb x y = true <-> x = y.
Proof.
  split.
  - apply Byte.byte_dec_bl.
  - apply Byte.byte_dec_lb.
Qed.

Lemma bytes_eqb_eq (a b : list byte) : bytes_eqb a b = true <-> a = b.
Proof.
  revert b; induction a as [|x a IH]; intros [|y b]; simpl;
    try (split; congruence).
  rewrite andb_true_iff, byte_eqb_eq, IH.
  split; [intros [-> ->]; reflexivity | intros E; inversion E; auto].
Qed.

Lemma oid_eqb_eq (a b : ObjectID) : oid_eqb a b = true <-> a = b.
Proof. apply bytes_eqb_eq. Qed.

Lemma oid_eqb_refl (a : ObjectID) : oid_eqb a a = true.
Proof. now apply oid_eqb_eq. Qed.

(** One byte survives [hex.Encode] followed by [hex.Decode]. *)
Lemma nibbles_roundtrip (v : byte) :
  fromHexChar (hexdigit (N.shiftr (Byte.to_N v) 4)) = Some (N.shiftr (Byte.to_N v) 4)
  /\ fromHexChar (hexdigit (N.land (Byte.to_N v) 15)) = Some (N.land (Byte.to_N v) 15)
  /\ byte_of_nibbles (N.shiftr (Byte.to_N v) 4) (N.land (Byte.to_N v) 15) = v.
Proof. destruct v; vm_compute; repeat split. Qed.

Lemma hex_decode_encode (l : list byte) : hex_decode (hex_encode l) = Some l.
Proof.
  induction l as [|v l IH]; [reflexivity|].
  destruct (nibbles_roundtrip v) as (Hh & Hl & Hb).
  cbn [hex_encode hex_decode]. rewrite Hh, Hl, IH, Hb. reflexivity.
Qed.

Lemma length_hex_encode (l : list byte) :
  List.length (hex_encode l) = (2 * List.length l)%nat.
Proof. induction l as [|v l IH]; simpl; [reflexivity | rewrite IH; lia]. Qed.

(** [ObjectIDFromHex] undoes [Hex] on twelve-byte identifiers. *)
Lemma ObjectIDFromHex_Hex (id : ObjectID) :
  well_formed id -> ObjectIDFromHex (Hex id) = (id, None).
Proof.
  unfold well_formed, ObjectIDFromHex, Hex. intros Hlen.
  rewrite length_of_chars, length_hex_encode, Hlen. simpl.
  now rewrite chars_of_chars, hex_decode_encode.
Qed.

(** On an even number of characters [hex.Decode] fails exactly when some
    character is not a hexadecimal digit. *)
Lemma hex_decode_even (n : nat) :
  forall l, List.length l = (2 * n)%nat ->
    (exists b, hex_decode l = Some b /\ List.length b = n)
    <-> forallb isHexChar l = true.
Proof.
  induction n as [|n IH]; intros l Hlen.
  - destruct l; [|discriminate]. simpl. split; [reflexivity|].
    intros _. now exists [].
  - destruct l as [|p [|q r]]; try (simpl in Hlen; lia).
    assert (Hr : List.length r = (2 * n)%nat) by (simpl in Hlen; lia).
    specialize (IH r Hr).
    cbn [hex_decode forallb]. unfold isHexChar at 1 2.
    destruct (fromHexChar p) as [a|]; cbn [andb].
    2:{ split; [intros (b & Hb & _); discriminate | discriminate]. }
    destruct (fromHexChar q) as [b|]; cbn [andb].
    2:{ split; [intros (x & Hx & _); discriminate | discriminate]. }
    rewrite <- IH. split.
    + intros (x & Hx & Hl).
      destruct (hex_decode r) as [y|]; [|discriminate].
      inversion Hx; subst x. exists y. split; [reflexivity|]. simpl in Hl. lia.
    + intros (y & Hy & Hl). rewrite Hy. eexists. split; [reflexivity|].
      simpl. lia.
Qed.

Lemma ObjectIDFromHex_ok (s : string) :
  is_object_id_hex s = true ->
  exists id, ObjectIDFromHex s = (id, None) /\ well_formed id.
Proof.
  unfold is_object_id_hex, ObjectIDFromHex. rewrite andb_true_iff.
  intros [Hlen Hhex]. rewrite Hlen. cbn [negb].
  apply Nat.eqb_eq in Hlen.
  destruct (proj2 (@hex_decode_even 12 (chars s)
                     ltac:(rewrite length_chars; exact Hlen)) Hhex)
    as (b & Hb & Hl).
  rewrite Hb. now exists b.
Qed.

Lemma hex_decode_length (n : nat) :
  forall l b, List.length l = (2 * n)%nat -> hex_decode l = Some b ->
    List.length b = n.
Proof.
  induction n as [|n IH]; intros l b Hlen.
  - destruct l; [|discriminate]. simpl. intros E; inversion E; reflexivity.
  - destruct l as [|p [|q r]]; try (simpl in Hlen; lia).
    cbn [hex_decode].
    destruct (fromHexChar p), (fromHexChar q); try discriminate.
    destruct (hex_decode r) as [y|] eqn:Hy; [|discriminate].
    intros E; inversion E; subst b. simpl. f_equal.
    apply (IH r y); [simpl in Hlen; lia | exact Hy].
Qed.

Lemma ObjectIDFromHex_malformed (s : string) :
  is_object_id_hex s = false ->
  exists e, ObjectIDFromHex s = (NilObjectID, Some e).
Proof.
  unfold is_object_id_hex, ObjectIDFromHex.
  destruct (Nat.eqb (String.length s) 24) eqn:Hlen; cbn [negb andb];
    [|intros _; eauto].
  intros Hhex. apply Nat.eqb_eq in Hlen. rewrite <- length_chars in Hlen.
  destruct (hex_decode (chars s)) as [b|] eqn:Hb; [|eauto].
  exfalso.
  assert (Hall : forallb isHexChar (chars s) = true).
  { apply (@hex_decode_even 12); [exact Hlen|].
    exists b. split; [exact Hb|]. now apply (@hex_decode_length 12 (chars s)). }
  congruence.
Qed.

(** Either way the identifier [ObjectIDFromHex] hands back has twelve
    bytes. *)
Lemma ObjectIDFromHex_well_formed (s : string) :
  well_formed (fst (ObjectIDFromHex s)).
Proof.
  destruct (is_object_id_hex s) eqn:Hs.
  - destruct (ObjectIDFromHex_ok s Hs) as (id & -> & Hid). exact Hid.
  - destruct (ObjectIDFromHex_malformed s Hs) as (e & ->). reflexivity.
Qed.

End PrimitiveFacts.

(** ** The collection primitives *)

Module MongoFacts.
Import Primitive Models Mongo PrimitiveFacts.

Section Generic.
Context {D : Type} `{Document D}.

Lemma FindOne_error (f : Bson.M) (c : list D) (e : Error) :
  FindOne f c = Err e -> e = ErrNoDocuments.
Proof. unfold FindOne. destruct (find (matches f) c); congruence. Qed.

Lemma FindOne_none (f : Bson.M) (c : list D) :
  FindOne f c = Err ErrNoDocuments <-> (forall d, In d c -> matches f d = false).
Proof.
  unfold FindOne. split.
  - destruct (find (matches f) c) eqn:E; [discriminate|].
    intros _ d Hd. exact (find_none _ _ E d Hd).
  - intros Hno. destruct (find (matches f) c) eqn:E; [|reflexivity].
    apply find_some in E. destruct E as [Hin Hm].
    rewrite (Hno _ Hin) in Hm. discriminate.
Qed.

Lemma FindOne_found (f : Bson.M) (c : list D) (d : D) :
  FindOne f c = Ok d -> In d c /\ matches f d = true.
Proof.
  unfold FindOne. destruct (find (matches f) c) eqn:E; [|discriminate].
  intros E'; inversion E'; subst. now apply find_some in E.
Qed.

(** [FindOne] returns the first match in insertion order. *)
Lemma FindOne_first (f : Bson.M) (pre post : list D) (d : D) :
  (forall x, In x pre -> matches f x = false) ->
  matches f d = true ->
  FindOne f (pre ++ d :: post) = Ok d.
Proof.
  unfold FindOne. induction pre as [|x pre IH]; intros Hpre Hd; simpl.
  - now rewrite Hd.
  - rewrite (Hpre x (or_introl eq_refl)). apply IH; [|exact Hd].
    intros y Hy. apply Hpre. now right.
Qed.

(** Any collection with a match splits at its first match. *)
Lemma first_match (f : Bson.M) (c : list D) :
  (exists d, In d c /\ matches f d = true) ->
  exists pre d post,
    c = pre ++ d :: post /\ matches f d = true
    /\ (forall x, In x pre -> matches f x = false).
Proof.
  induction c as [|x c IH]; intros (d & Hin & Hm); [contradiction|].
  destruct (matches f x) eqn:Hx.
  - exists [], x, c. repeat split; [exact Hx | contradiction].
  - destruct Hin as [->|Hin]; [congruence|].
    destruct IH as (pre & d' & post & -> & Hd' & Hpre); [eauto|].
    exists (x :: pre), d', post. repeat split; [exact Hd'|].
    intros y [->|Hy]; [exact Hx | now apply Hpre].
Qed.

Lemma UpdateOne_no_match (f : Bson.M) (set : D) (c : list D) :
  (forall d, In d c -> matches f d = false) ->
  UpdateOne f set c = (Ok {| MatchedCount := 0 |}, c).
Proof.
  induction c as [|x c IH]; intros Hno; [reflexivity|].
  cbn [UpdateOne]. rewrite (Hno x (or_introl eq_refl)).
  rewrite IH; [reflexivity|]. intros d Hd. apply Hno. now right.
Qed.

Lemma UpdateOne_first (f : Bson.M) (set : D) (pre post : list D) (d : D) :
  (forall x, In x pre -> matches f x = false) ->
  matches f d = true ->
  UpdateOne f set (pre ++ d :: post) =
    match apply_set set d with
    | Ok d' => (Ok {| MatchedCount := 1 |}, pre ++ d' :: post)
    | Err e => (Err e, pre ++ d :: post)
    end.
Proof.
  induction pre as [|x pre IH]; intros Hpre Hd.
  - cbn [app UpdateOne]. rewrite Hd. now destruct (apply_set set d).
  - cbn [app UpdateOne]. rewrite (Hpre x (or_introl eq_refl)).
    rewrite IH; [|intros y Hy; apply Hpre; now right | exact Hd].
    now destruct (apply_set set d).
Qed.

Lemma DeleteOne_no_match (f : Bson.M) (c : list D) :
  (forall d, In d c -> matches f d = false) ->
  DeleteOne f c = (Ok {| DeletedCount := 0 |}, c).
Proof.
  induction c as [|x c IH]; intros Hno; [reflexivity|].
  cbn [DeleteOne]. rewrite (Hno x (or_introl eq_refl)).
  rewrite IH; [reflexivity|]. intros d Hd. apply Hno. now right.
Qed.

Lemma DeleteOne_first (f : Bson.M) (pre post : list D) (d : D) :
  (forall x, In x pre -> matches f x = false) ->
  matches f d = true ->
  DeleteOne f (pre ++ d :: post) = (Ok {| DeletedCount := 1 |}, pre ++ post).
Proof.
  induction pre as [|x pre IH]; intros Hpre Hd.
  - cbn [app DeleteOne]. now rewrite Hd.
  - cbn [app DeleteOne]. rewrite (Hpre x (or_introl eq_refl)).
    rewrite IH; [reflexivity | intros y Hy; apply Hpre; now right | exact Hd].
Qed.

Lemma no_duplicate (id : ObjectID) (c : list D) :
  (forall x, In x c -> doc_id x <> id) ->
  existsb (fun x => oid_eqb (doc_id x) id) c = false.
Proof.
  intros Hfresh. destruct (existsb _ c) eqn:E; [|reflexivity].
  apply existsb_exists in E. destruct E as (x & Hx & Heq).
  apply oid_eqb_eq in Heq. now destruct (Hfresh x Hx).
Qed.

(** Inserting a document that carries its own, unused [_id]. *)
Lemma InsertOne_fresh (generated : ObjectID) (doc : D) (c : list D) :
  IsZero (doc_id doc) = false ->
  (forall x, In x c -> doc_id x <> doc_id doc) ->
  InsertOne generated doc c = (Ok {| InsertedID := doc_id doc |}, c ++ [doc]).
Proof.
  intros Hnz Hfresh. unfold InsertOne. rewrite Hnz.
  now rewrite (no_duplicate _ c Hfresh).
Qed.

(** Documents the filter does not select are out of reach of [UpdateOne]
    and [DeleteOne]: whatever predicate [keep] the selected documents
    fail, the documents satisfying it are the same before and after. *)
Lemma UpdateOne_frame (f : Bson.M) (set : D) (keep : D -> bool) (c : list D) :
  (forall d, matches f d = true -> keep d = false) ->
  (forall d d', matches f d = true -> apply_set set d = Ok d' -> keep d' = false) ->
  filter keep (snd (UpdateOne f set c)) = filter keep c.
Proof.
  intros Hsel Hset. induction c as [|x c IH]; [reflexivity|].
  cbn [UpdateOne]. destruct (matches f x) eqn:Hx.
  - destruct (apply_set set x) as [x'|e] eqn:Hs; cbn [snd filter]; [|reflexivity].
    now rewrite (Hsel x Hx), (Hset x x' Hx Hs).
  - destruct (UpdateOne f set c) as [res c'] eqn:Hu. cbn [snd filter] in *.
    now rewrite IH.
Qed.

Lemma DeleteOne_frame (f : Bson.M) (keep : D -> bool) (c : list D) :
  (forall d, matches f d = true -> keep d = false) ->
  filter keep (snd (DeleteOne f c)) = filter keep c.
Proof.
  intros Hsel. induction c as [|x c IH]; [reflexivity|].
  cbn [DeleteOne]. destruct (matches f x) eqn:Hx.
  - cbn [snd filter]. now rewrite (Hsel x Hx).
  - destruct (DeleteOne f c) as [res c'] eqn:Hu. cbn [snd filter] in *.
    now rewrite IH.
Qed.

End Generic.

(** The two filters of the service, read on the typed documents. *)

Lemma matches_by_username (username : string) (u : User) :
  matches (by_username username) u = true <-> User.Username u = username.
Proof.
  unfold matches, by_username. cbn. rewrite andb_true_r. apply String.eqb_eq.
Qed.

Lemma matches_by_id_and_owner (id owner : ObjectID) (t : Task) :
  matches (by_id_and_owner id owner) t = true
  <-> Task.ID t = id /\ Task.UserID t = owner.
Proof.
  unfold matches, by_id_and_owner. cbn.
  now rewrite andb_true_r, andb_true_iff, !oid_eqb_eq.
Qed.

Lemma not_matches_by_username (username : string) (u : User) :
  matches (by_username username) u = false <-> User.Username u <> username.
Proof.
  rewrite <- matches_by_username.
  destruct (matches (by_username username) u); split; congruence.
Qed.

Lemma not_matches_by_id_and_owner (id owner : ObjectID) (t : Task) :
  matches (by_id_and_owner id owner) t = false
  <-> ~ (Task.ID t = id /\ Task.UserID t = owner).
Proof.
  rewrite <- matches_by_id_and_owner.
  destruct (matches (by_id_and_owner id owner) t); split; congruence.
Qed.

Lemma with_id_same (t : Task) : with_id (Task.ID t) t = t.
Proof. now destruct t. Qed.

End MongoFacts.

(** ** Task handlers: ownership *)

Module TaskFacts.
Import Primitive Models Mongo Fiber Database Handlers PrimitiveFacts MongoFacts.

Lemma with_tasks_same (db : Database) : with_tasks db (TasksCollection db) = db.
Proof. now destruct db. Qed.

Lemma selected_not_others (id owner : ObjectID) (t : Task) :
  matches (by_id_and_owner id owner) t = true -> others owner t = false.
Proof.
  intros Hm. apply matches_by_id_and_owner in Hm. destruct Hm as [_ Hu].
  unfold others. now rewrite Hu, oid_eqb_refl.
Qed.

Lemma apply_set_owner (set old new : Task) :
  apply_set set old = Ok new -> Task.UserID new = Task.UserID set.
Proof.
  unfold apply_set.
  destruct (IsZero (doc_id set)); [intros E; inversion E; reflexivity|].
  destruct (oid_eqb (doc_id set) (doc_id old)); intros E; inversion E; reflexivity.
Qed.

(** [$set] with a struct whose [_id] is the matched document's own. *)
Lemma apply_set_same_id (set old : Task) :
  Task.ID set = Task.ID old -> apply_set set old = Ok set.
Proof.
  intros Hid. unfold apply_set. cbn [doc_id TaskDocument].
  destruct (IsZero (Task.ID set)).
  - rewrite <- Hid. now rewrite with_id_same.
  - now rewrite Hid, oid_eqb_refl.
Qed.

Lemma GetTask_not_found (c : Ctx) (db : Database) (userId : string) (T : ObjectID) :
  userId_of c = Some userId ->
  ObjectIDFromHex (ParamID c) = (T, None) ->
  (forall t, In t (TasksCollection db) ->
     matches (by_id_and_owner T (fst (ObjectIDFromHex userId))) t = false) ->
  GetTask c db = (error StatusNotFound "Task not found", db).
Proof.
  intros Hu HT Hm. unfold GetTask. rewrite Hu, HT.
  fold (by_id_and_owner T (fst (ObjectIDFromHex userId))).
  now rewrite (proj2 (FindOne_none _ _) Hm).
Qed.

(** With a matching task stored, [GetTask] returns the first one and
    [DeleteTask] removes the first one. *)
Lemma GetTask_found (c : Ctx) (db : Database) (userId : string) (T : ObjectID)
  (pre post : list Task) (t : Task) :
  userId_of c = Some userId ->
  ObjectIDFromHex (ParamID c) = (T, None) ->
  TasksCollection db = pre ++ t :: post ->
  (forall x, In x pre ->
     matches (by_id_and_owner T (fst (ObjectIDFromHex userId))) x = false) ->
  matches (by_id_and_owner T (fst (ObjectIDFromHex userId))) t = true ->
  GetTask c db = (Respond (JSON StatusOK (TaskJSON t)), db).
Proof.
  intros Hu HT Hsplit Hpre Ht. unfold GetTask. rewrite Hu, HT, Hsplit.
  fold (by_id_and_owner T (fst (ObjectIDFromHex userId))).
  now rewrite (FindOne_first _ pre post t Hpre Ht).
Qed.

Lemma DeleteTask_deleted (c : Ctx) (db : Database) (userId : string) (T : ObjectID)
  (pre post : list Task) (t : Task) :
  userId_of c = Some userId ->
  ObjectIDFromHex (ParamID c) = (T, None) ->
  TasksCollection db = pre ++ t :: post ->
  (forall x, In x pre ->
     matches (by_id_and_owner T (fst (ObjectIDFromHex userId))) x = false) ->
  matches (by_id_and_owner T (fst (ObjectIDFromHex userId))) t = true ->
  DeleteTask c db
  = (Respond (JSON StatusNoContent Empty), with_tasks db (pre ++ post)).
Proof.
  intros Hu HT Hsplit Hpre Ht. unfold DeleteTask. rewrite Hu, HT, Hsplit.
  fold (by_id_and_owner T (fst (ObjectIDFromHex userId))).
  now rewrite (DeleteOne_first _ pre post t Hpre Ht).
Qed.

(** None of the task handlers writes to the users. *)
Lemma task_handlers_keep_users (env : Env) (c : Ctx) (db : Database) :
  UsersCollection (snd (CreateTask env c db)) = UsersCollection db
  /\ UsersCollection (snd (GetTasks c db)) = UsersCollection db
  /\ UsersCollection (snd (GetTask c db)) = UsersCollection db
  /\ UsersCollection (snd (UpdateTask c db)) = UsersCollection db
  /\ UsersCollection (snd (DeleteTask c db)) = UsersCollection db.
Proof.
  unfold CreateTask, GetTasks, GetTask, UpdateTask, DeleteTask.
  destruct (userId_of c) as [userId|]; [|repeat split].
  destruct (ObjectIDFromHex (ParamID c)) as [T [e|]];
    destruct (ObjectIDFromHex userId) as [U [e'|]];
    destruct (BodyTask c) as [b|]; cbn [fst snd];
    repeat match goal with
      | |- _ /\ _ => split
      | |- context [FindOne ?f ?l] => destruct (FindOne f l) as [?|[]]
      | |- context [InsertOne ?g ?d ?l] => destruct (InsertOne g d l) as [[?|?] ?]
      | |- context [UpdateOne ?f ?d ?l] => destruct (UpdateOne f d l) as [[?|?] ?]
      | |- context [DeleteOne ?f ?l] => destruct (DeleteOne f l) as [[?|?] ?]
      | |- context [if ?b then _ else _] => destruct b
      end; reflexivity.
Qed.

End TaskFacts.


Section TaskClaims.
Import Primitive Models Mongo Fiber Database Handlers.
Import PrimitiveFacts MongoFacts TaskFacts.

(** C1. Get, Update and Delete select on the task identifier and the
    owner identifier together.  For a request past the middleware with user
    identifier string [userId] and a well-formed task identifier [T], with
    [U] the identifier [userId] converts to: when no stored task has both
    identifier [T] and owner [U], each of the three answers 404 "Task not
    found" and leaves the database as it was; whatever [GetTask] answers it
    never changes the database and a task it returns is a stored one with
    identifier [T] and owner [U]; and the tasks of every other owner are
    the same after [UpdateTask] and after [DeleteTask] as before. *)
Theorem C1_tasks_scoped_to_owner :
  forall (c : Ctx) (db : Database) (userId : string) (T : ObjectID),
    userId_of c = Some userId ->
    ObjectIDFromHex (ParamID c) = (T, None) ->
    let U := fst (ObjectIDFromHex userId) in
    ((forall t, In t (TasksCollection db) ->
                ~ (Task.ID t = T /\ Task.UserID t = U)) ->
     GetTask c db = (error StatusNotFound "Task not found", db)
     /\ (forall b, BodyTask c = Some b ->
           UpdateTask c db = (error StatusNotFound "Task not found", db))
     /\ DeleteTask c db = (error StatusNotFound "Task not found", db))
    /\ (forall r db', GetTask c db = (r, db') ->
          db' = db
          /\ (r = error StatusNotFound "Task not found"
              \/ exists t, r = Respond (JSON StatusOK (TaskJSON t))
                           /\ In t (TasksCollection db)
                           /\ Task.ID t = T /\ Task.UserID t = U))
    /\ filter (others U) (TasksCollection (snd (UpdateTask c db)))
       = filter (others U) (TasksCollection db)
    /\ filter (others U) (TasksCollection (snd (DeleteTask c db)))
       = filter (others U) (TasksCollection db).
Proof.
  intros c db userId T Hu HT U.
  split; [|split; [|split]].
  - (* no stored task has both *)
    intros Hno.
    assert (Hm : forall t, In t (TasksCollection db) ->
                   matches (by_id_and_owner T U) t = false).
    { intros t Ht. apply not_matches_by_id_and_owner. now apply Hno. }
    repeat split.
    + exact (GetTask_not_found c db userId T Hu HT Hm).
    + intros b Hb. unfold UpdateTask. rewrite Hu, HT, Hb. fold U.
      fold (by_id_and_owner T U). rewrite (UpdateOne_no_match _ _ _ Hm).
      cbn. now rewrite with_tasks_same.
    + unfold DeleteTask. rewrite Hu, HT. fold U. fold (by_id_and_owner T U).
      rewrite (DeleteOne_no_match _ _ Hm). cbn. now rewrite with_tasks_same.
  - intros r db' H. unfold GetTask in H. rewrite Hu, HT in H. fold U in H.
    fold (by_id_and_owner T U) in H.
    destruct (FindOne (by_id_and_owner T U) (TasksCollection db)) as [t|e] eqn:Hf;
      inversion H; subst; (split; [reflexivity|]); [right | now left].
    apply FindOne_found in Hf. destruct Hf as [Hin Hm].
    apply matches_by_id_and_owner in Hm. exists t. tauto.
  - unfold UpdateTask. rewrite Hu, HT. fold U. fold (by_id_and_owner T U).
    destruct (BodyTask c) as [b|]; [|reflexivity].
    pose proof (@UpdateOne_frame _ _ (by_id_and_owner T U) (force_ids b T U)
                  (others U) (TasksCollection db)
                  (selected_not_others T U)) as Hframe.
    destruct (UpdateOne _ _ _) as [[res|e] tasks]; cbn [snd] in *.
    + destruct (MatchedCount res =? 0); cbn; apply Hframe;
        intros d d' _ Hs; apply apply_set_owner in Hs;
        unfold others; rewrite Hs; cbn; now rewrite oid_eqb_refl.
    + cbn. apply Hframe.
      intros d d' _ Hs; apply apply_set_owner in Hs;
        unfold others; rewrite Hs; cbn; now rewrite oid_eqb_refl.
  - unfold DeleteTask. rewrite Hu, HT. fold U. fold (by_id_and_owner T U).
    pose proof (@DeleteOne_frame _ _ (by_id_and_owner T U) (others U)
                  (TasksCollection db) (selected_not_others T U)) as Hframe.
    destruct (DeleteOne _ _) as [[res|e] tasks]; cbn [snd] in *.
    + destruct (DeletedCount res =? 0); cbn; exact Hframe.
    + cbn. exact Hframe.
Qed.

Lemma C1_witness :
  GetTask Demo.aliceOnBobsTask Demo.db0
  = (error StatusNotFound "Task not found", Demo.db0)
  /\ UpdateTask Demo.aliceOnBobsTask Demo.db0
     = (error StatusNotFound "Task not found", Demo.db0)
  /\ DeleteTask Demo.aliceOnBobsTask Demo.db0
     = (error StatusNotFound "Task not found", Demo.db0).
Proof.
  destruct (@C1_tasks_scoped_to_owner Demo.aliceOnBobsTask Demo.db0
              (Hex Demo.aliceID) Demo.taskID eq_refl eq_refl) as [Hnf _].
  destruct Hnf as (Hg & Hu & Hd).
  { intros t [<-|[]] [_ Hown]. vm_compute in Hown. discriminate Hown. }
  split; [exact Hg | split; [exact (Hu _ eq_refl) | exact Hd]].
Defined.

(** C2. A successful Update writes the task the path and the middleware name.
    For a request past the middleware with user identifier string [userId]
    (converting to [U]), a well-formed path identifier [T] and a decoded
    body [b]: whenever a stored task has identifier [T] and owner [U], the
    first such task is replaced in place by [b] with its identifier forced
    to [T] and its owner forced to [U], every other document is left as it
    was, the answer is 200 with that record, and the answer and the
    database afterwards are the same whatever identifier and owner the body
    carried. *)
Theorem C2_update_forces_identifier_and_owner :
  forall (c : Ctx) (db : Database) (userId : string) (T : ObjectID) (b : Task),
    userId_of c = Some userId ->
    ObjectIDFromHex (ParamID c) = (T, None) ->
    BodyTask c = Some b ->
    let U := fst (ObjectIDFromHex userId) in
    let stored := force_ids b T U in
    (exists t, In t (TasksCollection db) /\ Task.ID t = T /\ Task.UserID t = U) ->
    Task.ID stored = T /\ Task.UserID stored = U
    /\ (exists pre old post,
          TasksCollection db = pre ++ old :: post
          /\ Task.ID old = T /\ Task.UserID old = U
          /\ (forall x, In x pre -> ~ (Task.ID x = T /\ Task.UserID x = U))
          /\ UpdateTask c db =
               (Respond (JSON StatusOK (TaskJSON stored)),
                with_tasks db (pre ++ stored :: post)))
    /\ (forall id' owner',
          UpdateTask (with_BodyTask c (force_ids b id' owner')) db
          = UpdateTask c db).
Proof.
  intros c db userId T b Hu HT Hb U stored (t & Hin & Hid & Hown).
  split; [reflexivity|]. split; [reflexivity|]. split.
  - destruct (@first_match _ _ (by_id_and_owner T U) (TasksCollection db))
      as (pre & old & post & Hsplit & Hold & Hpre).
    { exists t. split; [exact Hin|]. now apply matches_by_id_and_owner. }
    pose proof (proj1 (matches_by_id_and_owner _ _ _) Hold) as [HoldT HoldU].
    exists pre, old, post.
    split; [exact Hsplit|]. split; [exact HoldT|]. split; [exact HoldU|]. split.
    + intros x Hx. apply not_matches_by_id_and_owner. now apply Hpre.
    + unfold UpdateTask. rewrite Hu, HT, Hb. fold U. fold stored.
      fold (by_id_and_owner T U). rewrite Hsplit.
      rewrite (UpdateOne_first _ stored _ post _ Hpre Hold).
      rewrite apply_set_same_id; [reflexivity|]. now rewrite HoldT.
  - intros id' owner'. unfold UpdateTask.
    change (userId_of (with_BodyTask c (force_ids b id' owner'))) with (userId_of c).
    cbn [ParamID BodyTask with_BodyTask]. rewrite Hu, HT, Hb. reflexivity.
Qed.

Lemma C2_witness :
  UpdateTask Demo.bobOnBobsTask Demo.db0
  = (Respond (JSON StatusOK
                (TaskJSON (force_ids Demo.body Demo.taskID Demo.bobID))),
     with_tasks Demo.db0 [force_ids Demo.body Demo.taskID Demo.bobID]).
Proof.
  destruct (@C2_update_forces_identifier_and_owner Demo.bobOnBobsTask Demo.db0
              (Hex Demo.bobID) Demo.taskID Demo.body eq_refl eq_refl eq_refl)
    as (_ & _ & (pre & old & post & Hsplit & _ & _ & _ & Hupd) & _).
  { exists Demo.bobsTask. split; [now left | split; reflexivity]. }
  destruct pre as [|x [|y pre]]; try discriminate Hsplit.
  destruct post; [exact Hupd | discriminate Hsplit].
Defined.

(** C9, as the code has it.  For a request past the middleware, [GetTask]
    answers 404 "Task not found" when the path identifier is well formed
    and no stored task has both that identifier and the caller as owner;
    a path identifier that is not twenty-four hexadecimal digits is
    answered 400 "Invalid task ID".  Neither case changes the database. *)
Theorem C9_get_not_found_or_bad_request :
  forall (c : Ctx) (db : Database) (userId : string),
    userId_of c = Some userId ->
    let U := fst (ObjectIDFromHex userId) in
    (forall T, ObjectIDFromHex (ParamID c) = (T, None) ->
       (forall t, In t (TasksCollection db) ->
                  ~ (Task.ID t = T /\ Task.UserID t = U)) ->
       GetTask c db = (error StatusNotFound "Task not found", db))
    /\ (is_object_id_hex (ParamID c) = false ->
        GetTask c db = (error StatusBadRequest "Invalid task ID", db)).
Proof.
  intros c db userId Hu U. split.
  - intros T HT Hno.
    apply (GetTask_not_found c db userId T Hu HT).
    intros t Ht. apply not_matches_by_id_and_owner. now apply Hno.
  - intros Hbad. destruct (ObjectIDFromHex_malformed _ Hbad) as (e & He).
    unfold GetTask. now rewrite Hu, He.
Qed.

Lemma C9_witness :
  GetTask Demo.aliceOnBobsTask Demo.db0
  = (error StatusNotFound "Task not found", Demo.db0)
  /\ GetTask Demo.malformedPath Demo.db0
     = (error StatusBadRequest "Invalid task ID", Demo.db0).
Proof.
  split.
  - apply (proj1 (@C9_get_not_found_or_bad_request Demo.aliceOnBobsTask Demo.db0
                    (Hex Demo.aliceID) eq_refl) Demo.taskID eq_refl).
    intros t [<-|[]] [_ Hown]. vm_compute in Hown. discriminate Hown.
  - apply (proj2 (@C9_get_not_found_or_bad_request Demo.malformedPath Demo.db0
                    (Hex Demo.aliceID) eq_refl)).
    reflexivity.
Defined.

(** C9 as stated fails: the path identifier "not-an-id" is not well
    formed, and [GetTask] answers it with status 400, not 404. *)
Lemma C9_counterexample :
  is_object_id_hex (ParamID Demo.malformedPath) = false
  /\ status_of (fst (GetTask Demo.malformedPath Demo.db0)) = Some StatusBadRequest
  /\ status_of (fst (GetTask Demo.malformedPath Demo.db0)) <> Some StatusNotFound.
Proof.
  split; [reflexivity|]. split; [reflexivity|]. vm_compute. discriminate.
Qed.

(** *** Create *)

(** [NewDateTimeFromTime] is the instant in whole milliseconds. *)
Lemma NewDateTimeFromTime_millis (t : Time.Time) :
  Time.NewDateTimeFromTime t = t / 1000000.
Proof.
  unfold Time.NewDateTimeFromTime, Time.Unix.
  pose proof (Z.div_mod t 1000000000 ltac:(lia)) as Ht.
  pose proof (Z.mod_pos_bound t 1000000000 ltac:(lia)) as Hr.
  set (q := t / 1000000000) in *. set (r := t mod 1000000000) in *.
  replace (t / 1000000) with ((r + (q * 1000) * 1000000) / 1000000)
    by (f_equal; lia).
  rewrite Z.div_add by lia. lia.
Qed.

Lemma assignee_found (username : string) (users : list User) :
  (exists u, In u users /\ User.Username u = username) ->
  exists u, FindOne (by_username username) users = Ok u.
Proof.
  intros (u & Hin & Hname).
  destruct (FindOne (by_username username) users) as [v|e] eqn:Hf; [eauto|].
  pose proof (FindOne_error _ _ _ Hf) as ->.
  pose proof (proj1 (FindOne_none _ _) Hf u Hin) as Hno.
  apply not_matches_by_username in Hno. contradiction.
Qed.

(** What [CreateTask] does once the body decodes and the assignee
    exists, for any user identifier string. *)
Lemma CreateTask_created (env : Env) (c : Ctx) (db : Database)
  (userId : string) (b : Task) :
  userId_of c = Some userId ->
  BodyTask c = Some b ->
  (exists u, In u (UsersCollection db) /\ User.Username u = Task.AllottedTo b) ->
  IsZero (NewObjectID env) = false ->
  (forall t, In t (TasksCollection db) -> Task.ID t <> NewObjectID env) ->
  CreateTask env c db =
    (Respond (JSON StatusCreated
                (TaskJSON (server_set b (NewObjectID env)
                             (fst (ObjectIDFromHex userId))
                             (Time.NewDateTimeFromTime (Now env)) "Pending"))),
     with_tasks db
       (TasksCollection db
        ++ [server_set b (NewObjectID env) (fst (ObjectIDFromHex userId))
              (Time.NewDateTimeFromTime (Now env)) "Pending"])).
Proof.
  intros Hu Hb Hassignee Hnz Hfresh.
  destruct (assignee_found _ _ Hassignee) as (u & Hfound).
  unfold CreateTask. rewrite Hu, Hb.
  fold (by_username (Task.AllottedTo b)). rewrite Hfound.
  rewrite InsertOne_fresh; [reflexivity | exact Hnz | exact Hfresh].
Qed.

(** C6. A Create call past the middleware whose body decodes and whose
    assignee exists inserts one record and returns that same record with
    status 201.  The record is the body with four fields set by the
    server: the identifier is the freshly generated one, the owner is the
    authenticated user identifier, the start time is the server clock in
    milliseconds, the status is "Pending"; the other fields are the
    body's.  What the body carried in those four fields has no effect on
    the answer or on the database. *)
Theorem C6_create_sets_server_fields :
  forall (env : Env) (c : Ctx) (db : Database) (userId : string)
         (U : ObjectID) (b : Task),
    userId_of c = Some userId ->
    ObjectIDFromHex userId = (U, None) ->
    BodyTask c = Some b ->
    (exists u, In u (UsersCollection db) /\ User.Username u = Task.AllottedTo b) ->
    IsZero (NewObjectID env) = false ->
    (forall t, In t (TasksCollection db) -> Task.ID t <> NewObjectID env) ->
    exists stored,
      CreateTask env c db =
        (Respond (JSON StatusCreated (TaskJSON stored)),
         with_tasks db (TasksCollection db ++ [stored]))
      /\ Task.ID stored = NewObjectID env
      /\ Task.UserID stored = U
      /\ Task.StartDate stored = Now env / 1000000
      /\ Task.Status stored = "Pending"
      /\ (Task.Title stored, Task.Description stored, Task.AllottedTo stored,
          Task.DoneBy stored, Task.EndDate stored)
         = (Task.Title b, Task.Description b, Task.AllottedTo b,
            Task.DoneBy b, Task.EndDate b)
      /\ (forall id owner start status,
            CreateTask env (with_BodyTask c (server_set b id owner start status)) db
            = CreateTask env c db).
Proof.
  intros env c db userId U b Hu HU Hb Hassignee Hnz Hfresh.
  exists (server_set b (NewObjectID env) U
            (Time.NewDateTimeFromTime (Now env)) "Pending").
  split.
  - rewrite (CreateTask_created env c db userId b Hu Hb Hassignee Hnz Hfresh).
    now rewrite HU.
  - split; [reflexivity|]. split; [reflexivity|].
    split; [apply NewDateTimeFromTime_millis|].
    split; [reflexivity|]. split; [reflexivity|].
    intros id owner start status.
    rewrite (CreateTask_created env c db userId b Hu Hb Hassignee Hnz Hfresh).
    rewrite (CreateTask_created env
               (with_BodyTask c (server_set b id owner start status))
               db userId (server_set b id owner start status) Hu eq_refl
               Hassignee Hnz Hfresh).
    reflexivity.
Qed.

Lemma C6_witness :
  exists stored,
    CreateTask Demo.env0 Demo.aliceCreates Demo.db0 =
      (Respond (JSON StatusCreated (TaskJSON stored)),
       with_tasks Demo.db0 [Demo.bobsTask; stored])
    /\ Task.ID stored = Demo.freshID
    /\ Task.UserID stored = Demo.aliceID
    /\ Task.StartDate stored = 1719792000123
    /\ Task.Status stored = "Pending".
Proof.
  destruct (C6_create_sets_server_fields Demo.env0 Demo.aliceCreates Demo.db0
              (Hex Demo.aliceID) Demo.aliceID Demo.body
              eq_refl eq_refl eq_refl)
    as (stored & Hrun & Hid & Hown & Hstart & Hstatus & _ & _).
  - exists Demo.alice. split; [now left | reflexivity].
  - reflexivity.
  - intros t [<-|[]]. vm_compute. discriminate.
  - exists stored. split; [exact Hrun|]. split; [exact Hid|].
    split; [exact Hown|]. split; [exact Hstart | exact Hstatus].
Defined.

(** C7. A Create call past the middleware whose body decodes but whose
    assignee username no stored user carries is answered 400 "Allotted
    user does not exist", and the database, tasks included, is exactly what
    it was. *)
Theorem C7_create_unknown_assignee :
  forall (env : Env) (c : Ctx) (db : Database) (userId : string) (b : Task),
    userId_of c = Some userId ->
    BodyTask c = Some b ->
    (forall u, In u (UsersCollection db) ->
               User.Username u <> Task.AllottedTo b) ->
    CreateTask env c db
    = (error StatusBadRequest "Allotted user does not exist", db)
    /\ TasksCollection (snd (CreateTask env c db)) = TasksCollection db.
Proof.
  intros env c db userId b Hu Hb Hnone.
  assert (Hrun : CreateTask env c db
                 = (error StatusBadRequest "Allotted user does not exist", db)).
  { unfold CreateTask. rewrite Hu, Hb.
    fold (by_username (Task.AllottedTo b)).
    rewrite (proj2 (FindOne_none (by_username (Task.AllottedTo b))
                      (UsersCollection db))); [reflexivity|].
    intros u Hin. apply not_matches_by_username. now apply Hnone. }
  split; [exact Hrun | now rewrite Hrun].
Qed.

Lemma C7_witness :
  CreateTask Demo.env0 Demo.aliceCreatesOrphan Demo.db0
  = (error StatusBadRequest "Allotted user does not exist", Demo.db0).
Proof.
  apply (proj1 (C7_create_unknown_assignee Demo.env0 Demo.aliceCreatesOrphan
                  Demo.db0 (Hex Demo.aliceID) Demo.orphanBody eq_refl eq_refl
                  ltac:(intros u [<-|[]]; vm_compute; discriminate))).
Defined.

(** C10. When the user identifier string the middleware attached is not
    twenty-four hexadecimal digits, the conversion in [CreateTask] fails,
    its error is dropped, and the call goes on: with a decodable body, an
    existing assignee and a fresh identifier it answers 201 and stores the
    task with the all-zero identifier as owner. *)
Theorem C10_malformed_user_id_owner_is_zero :
  forall (env : Env) (c : Ctx) (db : Database) (userId : string) (b : Task),
    userId_of c = Some userId ->
    is_object_id_hex userId = false ->
    BodyTask c = Some b ->
    (exists u, In u (UsersCollection db) /\ User.Username u = Task.AllottedTo b) ->
    IsZero (NewObjectID env) = false ->
    (forall t, In t (TasksCollection db) -> Task.ID t <> NewObjectID env) ->
    (exists e, snd (ObjectIDFromHex userId) = Some e)
    /\ exists stored,
         CreateTask env c db =
           (Respond (JSON StatusCreated (TaskJSON stored)),
            with_tasks db (TasksCollection db ++ [stored]))
         /\ Task.UserID stored = NilObjectID
         /\ Task.UserID stored = repeat x00 12
         /\ stored = server_set b (NewObjectID env) NilObjectID
                       (Time.NewDateTimeFromTime (Now env)) "Pending".
Proof.
  intros env c db userId b Hu Hbad Hb Hassignee Hnz Hfresh.
  destruct (ObjectIDFromHex_malformed userId Hbad) as (e & He).
  split; [exists e; now rewrite He|].
  eexists. split.
  - rewrite (CreateTask_created env c db userId b Hu Hb Hassignee Hnz Hfresh).
    rewrite He. reflexivity.
  - split; [reflexivity|]. split; reflexivity.
Qed.

Lemma C10_witness :
  exists stored,
    CreateTask Demo.env0 Demo.strangerCreates Demo.db0 =
      (Respond (JSON StatusCreated (TaskJSON stored)),
       with_tasks Demo.db0 [Demo.bobsTask; stored])
    /\ Task.UserID stored = NilObjectID.
Proof.
  destruct (C10_malformed_user_id_owner_is_zero Demo.env0 Demo.strangerCreates
              Demo.db0 "guest" Demo.body eq_refl eq_refl eq_refl)
    as (_ & stored & Hrun & Hown & _).
  - exists Demo.alice. split; [now left | reflexivity].
  - reflexivity.
  - intros t [<-|[]]. vm_compute. discriminate.
  - exists stored. split; [exact Hrun | exact Hown].
Defined.

End TaskClaims.

(** ** Sign-up, sign-in and the token middleware *)


Section IdentityClaims.
Import Primitive Models Mongo Fiber Database Handlers Identity.
Import PrimitiveFacts MongoFacts TaskFacts.
Context `{Bcrypt.Bcrypt} `{JWT.Signer}.

(** *** The validator on the tokens [SignIn] issues *)

Lemma Valid_issued (t : Time.Time) (subject : string) (expiry : Z) :
  JWT.MapClaims_Valid t (issued_claims subject expiry)
  = if (expiry =? 0) || (Time.Unix t <? expiry) then 0
    else JWT.ValidationErrorExpired.
Proof.
  unfold JWT.MapClaims_Valid, JWT.VerifyExpiresAt, JWT.VerifyIssuedAt,
    JWT.VerifyNotBefore, JWT.verifyClaim, issued_claims.
  cbn [JWT.lookup String.eqb Ascii.eqb Bool.eqb negb JWT.verifyExp].
  destruct (expiry =? 0); cbn [orb JWT.verifyExp negb]; [reflexivity|].
  destruct (Time.Unix t <? expiry); reflexivity.
Qed.

Lemma SignedString_issued (secret subject : string) (expiry : Z) :
  JWT.SignedString
    (JWT.NewWithClaims JWT.SigningMethodHS256 (issued_claims subject expiry))
    secret
  = Some (JWT.Compact "HS256" (issued_claims subject expiry)
            (JWT.hmac "HS256" secret (issued_claims subject expiry))).
Proof. reflexivity. Qed.

(** Parsing an issued token under any key: the only error bits that can
    be set are the expiry bit, decided by the clock, and the signature
    bit, decided by the key. *)
Lemma Parse_issued (t : Time.Time) (secret key subject : string) (expiry : Z) :
  let claims := issued_claims subject expiry in
  let signature := JWT.hmac "HS256" secret claims in
  let vErr :=
    Z.lor (if (expiry =? 0) || (Time.Unix t <? expiry) then 0
           else JWT.ValidationErrorExpired)
          (if String.eqb (JWT.hmac "HS256" key claims) signature then 0
           else JWT.ValidationErrorSignatureInvalid) in
  JWT.Parse t (JWT.Compact "HS256" claims signature) (Utils.keyFunc key)
  = if vErr =? 0
    then (Some {| JWT.Method := JWT.SigningMethodHMAC "HS256";
                  JWT.Claims := claims; JWT.Signature := signature;
                  JWT.Valid := true |}, None)
    else (Some {| JWT.Method := JWT.SigningMethodHMAC "HS256";
                  JWT.Claims := claims; JWT.Signature := signature;
                  JWT.Valid := false |}, Some {| JWT.Errors := vErr |}).
Proof.
  intros claims signature vErr. unfold JWT.Parse.
  change (JWT.GetSigningMethod "HS256") with (Some (JWT.SigningMethodHMAC "HS256")).
  cbn [Utils.keyFunc JWT.NewWithClaims JWT.Method JWT.Verify].
  subst vErr. rewrite (Valid_issued t subject expiry : JWT.MapClaims_Valid t claims = _).
  destruct (String.eqb (JWT.hmac "HS256" key claims) signature);
    [rewrite Z.lor_0_r|]; reflexivity.
Qed.

(** The middleware lets an issued token through, and attaches its subject,
    whenever the clock reads a second before the expiry (or the expiry
    claim is zero). *)
Lemma JWTMiddleware_issued (secret subject : string) (expiry : Z)
  (env : Env) (c : Ctx) :
  Authorization c
  = JWT.Compact "HS256" (issued_claims subject expiry)
      (JWT.hmac "HS256" secret (issued_claims subject expiry)) ->
  ((expiry =? 0) || (Time.Unix (Now env) <? expiry)) = true ->
  Utils.JWTMiddleware secret env c
  = Next (SetLocal c "userId" (LocalClaim (JWT.Str subject))).
Proof.
  intros Hauth Hlive. unfold Utils.JWTMiddleware. rewrite Hauth.
  cbn [JWT.is_empty]. rewrite Parse_issued, Hlive, String.eqb_refl.
  reflexivity.
Qed.

Lemma Unix_after (t e : Z) :
  e * 1000000000 < t -> (Time.Unix t <? e) = false.
Proof.
  intros Hlt. unfold Time.Unix. apply Z.ltb_ge.
  apply Z.div_le_lower_bound; lia.
Qed.

Lemma Unix_before (t e : Z) :
  t <= (e - 1) * 1000000000 -> (Time.Unix t <? e) = true.
Proof.
  intros Hle. unfold Time.Unix. apply Z.ltb_lt.
  apply Z.div_lt_upper_bound; lia.
Qed.

(** *** Sign-up *)

(** What a 201 from [SignUp] means: nobody carried the username (when
    it is not blank), and exactly the returned record, holding the hash of
    the submitted password, was appended to the users. *)
Lemma SignUp_created (env : Env) (c : Ctx) (db db1 : Database)
  (user created : User) :
  BodyUser c = Some user ->
  SignUp env c db = (Respond (JSON StatusCreated (UserJSON created)), db1) ->
  (is_blank (User.Username user) = false ->
   forall v, In v (UsersCollection db) -> User.Username v <> User.Username user)
  /\ UsersCollection db1 = UsersCollection db ++ [created]
  /\ TasksCollection db1 = TasksCollection db
  /\ User.Username created = User.Username user
  /\ User.Password created = Utils.HashPassword env (User.Password user).
Proof.
  intros Hb. unfold SignUp. rewrite Hb.
  fold (by_username (User.Username user)).
  destruct (FindOne (by_username (User.Username user)) (UsersCollection db))
    as [u|e] eqn:Hf.
  - (* a record with the username exists *)
    cbn iota beta. apply FindOne_found in Hf. destruct Hf as [Hin Hm].
    apply matches_by_username in Hm.
    destruct (is_blank (User.Username u)) eqn:Hblank; cbn [negb];
      [|discriminate].
    rewrite Hm in Hblank.
    unfold InsertOne.
    destruct (IsZero _); destruct (existsb _ _); try discriminate;
      intros E; inversion E; subst; cbn;
      (split; [congruence|]); repeat split; try reflexivity.
  - pose proof (FindOne_error _ _ _ Hf) as ->. cbn iota beta.
    cbn [is_blank zeroUser User.Username negb].
    pose proof (proj1 (FindOne_none _ _) Hf) as Hno.
    unfold InsertOne.
    destruct (IsZero _); destruct (existsb _ _); try discriminate;
      intros E; inversion E; subst; cbn;
      (split; [intros _ v Hv; apply not_matches_by_username; now apply Hno|]);
      repeat split; try reflexivity.
Qed.

Ltac nothing_added := exists []; symmetry; apply app_nil_r.

(** Users are only ever appended: [SignUp] adds at most one record at the
    end, [SignIn] and [SignOut] add none. *)
Lemma users_only_grow (jwtSecret : string) (ttl : Z) (env : Env) (c : Ctx)
  (db : Database) :
  (exists more, UsersCollection (snd (SignUp env c db)) = UsersCollection db ++ more)
  /\ snd (SignIn jwtSecret ttl env c db) = db
  /\ snd (SignOut c db) = db.
Proof.
  split; [|split; [|reflexivity]].
  - unfold SignUp. destruct (BodyUser c) as [user|]; [|nothing_added].
    destruct (FindOne _ _) as [u|[]]; cbn iota beta;
      try (nothing_added).
    + destruct (negb _); [nothing_added|].
      unfold InsertOne. destruct (existsb _ _); cbn;
        [nothing_added | eexists; reflexivity].
    + cbn [negb is_blank zeroUser User.Username].
      unfold InsertOne. destruct (existsb _ _); cbn;
        [nothing_added | eexists; reflexivity].
  - unfold SignIn. destruct (BodyUser c) as [user|]; [|reflexivity].
    destruct (_ || _); [reflexivity|].
    destruct (FindOne _ _) as [u|[]]; try reflexivity.
    destruct (negb _); [reflexivity|]. cbn. reflexivity.
Qed.

(** A username that is taken and not blank is refused, and nothing is
    written. *)
Lemma SignUp_username_taken (env : Env) (c : Ctx) (db : Database) (user : User) :
  BodyUser c = Some user ->
  is_blank (User.Username user) = false ->
  (exists v, In v (UsersCollection db) /\ User.Username v = User.Username user) ->
  SignUp env c db = (error StatusBadRequest "username already taken", db).
Proof.
  intros Hb Hname Htaken.
  destruct (assignee_found _ _ Htaken) as (u & Hf).
  unfold SignUp. rewrite Hb. fold (by_username (User.Username user)). rewrite Hf.
  apply FindOne_found in Hf. destruct Hf as [_ Hm].
  apply matches_by_username in Hm. cbn iota beta. now rewrite Hm, Hname.
Qed.

(** *** Sign-in *)

Lemma SignIn_issues (jwtSecret : string) (tokenExpiryTime : Z)
  (env : Env) (c : Ctx) (db : Database) (user foundUser : User) :
  BodyUser c = Some user ->
  is_blank (User.Username user) = false ->
  is_blank (User.Password user) = false ->
  FindOne (by_username (User.Username user)) (UsersCollection db) = Ok foundUser ->
  Utils.CheckPasswordHash (User.Password user) (User.Password foundUser) = true ->
  SignIn jwtSecret tokenExpiryTime env c db
  = (Respond
       (JSON StatusOK
          (TokenMap "token"
             (JWT.Compact "HS256"
                (issued_claims (Hex (User.ID foundUser))
                   (Time.Unix (Time.Add (Now env) (Time.Seconds tokenExpiryTime))))
                (JWT.hmac "HS256" jwtSecret
                   (issued_claims (Hex (User.ID foundUser))
                      (Time.Unix (Time.Add (Now env)
                                    (Time.Seconds tokenExpiryTime)))))))),
     db).
Proof.
  intros Hb Hname Hpw Hf Hcheck. unfold SignIn.
  rewrite Hb, Hname, Hpw. cbn [orb].
  fold (by_username (User.Username user)). rewrite Hf, Hcheck.
  reflexivity.
Qed.

Lemma SignIn_bad_credentials (jwtSecret : string) (tokenExpiryTime : Z)
  (env : Env) (c : Ctx) (db : Database) (user : User) :
  BodyUser c = Some user ->
  is_blank (User.Username user) = false ->
  is_blank (User.Password user) = false ->
  BadCredentials user db ->
  SignIn jwtSecret tokenExpiryTime env c db
  = (error StatusUnauthorized "invalid credentials", db).
Proof.
  intros Hb Hname Hpw Hbad. unfold SignIn.
  rewrite Hb, Hname, Hpw. cbn [orb].
  fold (by_username (User.Username user)).
  destruct Hbad as [Hnone | foundUser Hf Hcheck].
  - rewrite (proj2 (FindOne_none (by_username (User.Username user))
                      (UsersCollection db))); [reflexivity|].
    intros v Hv. apply not_matches_by_username. now apply Hnone.
  - now rewrite Hf, Hcheck.
Qed.

(** A token [Parse] accepts carries the claims of the string it was
    given, whatever the key function. *)
Lemma Parse_claims (t : Time.Time) (alg : string) (claims : JWT.MapClaims)
  (signature : string) (keyFunc : JWT.Token -> option string) (token : JWT.Token) :
  JWT.Parse t (JWT.Compact alg claims signature) keyFunc = (Some token, None) ->
  JWT.Claims token = claims.
Proof.
  unfold JWT.Parse.
  destruct (JWT.GetSigningMethod alg) as [m|]; [|discriminate].
  destruct (keyFunc _) as [key|]; [|discriminate].
  destruct (_ =? 0); [|discriminate].
  intros E; inversion E; reflexivity.
Qed.

(** C4. A sign-in whose username and password are both non-blank and
    whose credentials are wrong, for either cause, is answered 401 with
    the body {"error": "invalid credentials"} and changes nothing; so two
    such sign-ins, one failing on the username and one on the password (or
    any other pair), get the same response. *)
Theorem C4_signin_failures_indistinguishable :
  forall (jwtSecret : string) (tokenExpiryTime : Z)
         (env1 env2 : Env) (c1 c2 : Ctx) (db1 db2 : Database) (u1 u2 : User),
    BodyUser c1 = Some u1 ->
    is_blank (User.Username u1) = false -> is_blank (User.Password u1) = false ->
    BadCredentials u1 db1 ->
    BodyUser c2 = Some u2 ->
    is_blank (User.Username u2) = false -> is_blank (User.Password u2) = false ->
    BadCredentials u2 db2 ->
    SignIn jwtSecret tokenExpiryTime env1 c1 db1
    = (Respond (JSON StatusUnauthorized (Map [("error", "invalid credentials")])),
       db1)
    /\ fst (SignIn jwtSecret tokenExpiryTime env1 c1 db1)
       = fst (SignIn jwtSecret tokenExpiryTime env2 c2 db2).
Proof.
  intros jwtSecret tokenExpiryTime env1 env2 c1 c2 db1 db2 u1 u2
    Hb1 Hn1 Hp1 Hbad1 Hb2 Hn2 Hp2 Hbad2.
  rewrite (SignIn_bad_credentials jwtSecret tokenExpiryTime env1 c1 db1 u1
             Hb1 Hn1 Hp1 Hbad1).
  rewrite (SignIn_bad_credentials jwtSecret tokenExpiryTime env2 c2 db2 u2
             Hb2 Hn2 Hp2 Hbad2).
  split; reflexivity.
Qed.

(** C3, as the code has it.  Take a user created by sign-up (answer 201
    with record [created]) from a body with non-blank username and password
    whose password bcrypt hashed.  At any later time, however many users
    were appended since, a sign-in with the same username and password
    answers 200 with a token; and a request presenting that token, while
    the clock in whole seconds is before the expiry, passes
    [JWTMiddleware] under the same secret with the string form of
    [created]'s identifier attached as "userId", readable by the handlers;
    the [SuccessHandler] of [Protected] attaches the same string for any
    token the string parses to; and that string converts back to the
    identifier when it has twelve bytes. *)
Theorem C3_signin_token_recovers_identifier :
  forall (jwtSecret : string) (tokenExpiryTime : Z)
         (env1 env2 : Env) (c1 c2 : Ctx) (db0 db1 db2 : Database)
         (user created credentials : User) (hash : string) (later : list User),
    BodyUser c1 = Some user ->
    is_blank (User.Username user) = false ->
    is_blank (User.Password user) = false ->
    Bcrypt.GenerateFromPassword (User.Password user) 14 (Salt env1) = Some hash ->
    SignUp env1 c1 db0 = (Respond (JSON StatusCreated (UserJSON created)), db1) ->
    UsersCollection db2 = UsersCollection db1 ++ later ->
    BodyUser c2 = Some credentials ->
    User.Username credentials = User.Username user ->
    User.Password credentials = User.Password user ->
    exists tokenString,
      SignIn jwtSecret tokenExpiryTime env2 c2 db2
      = (Respond (JSON StatusOK (TokenMap "token" tokenString)), db2)
      /\ (forall (env3 : Env) (c3 : Ctx),
            Authorization c3 = tokenString ->
            Time.Unix (Now env3)
            < Time.Unix (Time.Add (Now env2) (Time.Seconds tokenExpiryTime)) ->
            Utils.JWTMiddleware jwtSecret env3 c3
            = Next (SetLocal c3 "userId"
                      (LocalClaim (JWT.Str (Hex (User.ID created)))))
            /\ userId_of (SetLocal c3 "userId"
                            (LocalClaim (JWT.Str (Hex (User.ID created)))))
               = Some (Hex (User.ID created)))
      /\ (forall (t : Time.Time) (keyFunc : JWT.Token -> option string)
                 (token : JWT.Token) (c3 : Ctx),
            JWT.Parse t tokenString keyFunc = (Some token, None) ->
            Middleware.SuccessHandler (SetLocal c3 "user" (LocalToken token))
            = Next (SetLocal (SetLocal c3 "user" (LocalToken token)) "userId"
                      (LocalClaim (JWT.Str (Hex (User.ID created))))))
      /\ (well_formed (User.ID created) ->
          ObjectIDFromHex (Hex (User.ID created)) = (User.ID created, None)).
Proof.
  intros jwtSecret tokenExpiryTime env1 env2 c1 c2 db0 db1 db2
    user created credentials hash later
    Hb1 Hname Hpw Hhash Hup Hlater Hb2 Hsame_name Hsame_pw.
  destruct (SignUp_created env1 c1 db0 db1 user created Hb1 Hup)
    as (Hnew & Husers & _ & Hcname & Hcpw).
  specialize (Hnew Hname).
  (* the record sign-in finds is the created one *)
  assert (Hfind : FindOne (by_username (User.Username credentials))
                    (UsersCollection db2) = Ok created).
  { rewrite Hlater, Husers, <- app_assoc. cbn [app].
    apply FindOne_first.
    - intros v Hv. apply not_matches_by_username.
      rewrite Hsame_name. now apply Hnew.
    - apply matches_by_username. congruence. }
  assert (Hcheck : Utils.CheckPasswordHash (User.Password credentials)
                     (User.Password created) = true).
  { unfold Utils.CheckPasswordHash. rewrite Hcpw, Hsame_pw.
    unfold Utils.HashPassword. rewrite Hhash.
    exact (Bcrypt.compare_generated _ _ _ _ Hhash). }
  eexists. split.
  - apply (SignIn_issues jwtSecret tokenExpiryTime env2 c2 db2 credentials created);
      try assumption; congruence.
  - split; [|split].
    + intros env3 c3 Hauth Hlive. split; [|reflexivity].
      apply (JWTMiddleware_issued jwtSecret _ _ env3 c3 Hauth).
      apply orb_true_iff. right. now apply Z.ltb_lt.
    + intros t keyFunc token c3 Hparse.
      apply Parse_claims in Hparse.
      unfold Middleware.SuccessHandler.
      change (GetLocal (SetLocal c3 "user" (LocalToken token)) "user")
        with (LocalToken token).
      cbv beta iota zeta. rewrite Hparse. reflexivity.
    + apply ObjectIDFromHex_Hex.
Qed.

(** C5, as the code has it.  Take the token issued under [secret] with
    subject [S] and expiry [E] seconds.  When [E] is not zero, validating
    it at any instant after [E] fails with the Expired bit set, under any
    key, and the middleware answers 401.  Validating it at any instant at least
    one second before [E] never sets the Expired bit, and under the
    issuing secret it succeeds and the middleware attaches [S]. *)
Theorem C5_expiry_is_enforced :
  forall (secret S : string) (E : Z) (tokenString : JWT.TokenString),
    JWT.SignedString
      (JWT.NewWithClaims JWT.SigningMethodHS256 (issued_claims S E)) secret
    = Some tokenString ->
    (E <> 0 ->
     forall (env : Env) (c : Ctx),
       E * 1000000000 < Now env ->
       Authorization c = tokenString ->
       (forall key,
          JWT.IsExpired (snd (JWT.Parse (Now env) tokenString (Utils.keyFunc key)))
          = true)
       /\ Utils.JWTMiddleware secret env c
          = Respond (JSON StatusUnauthorized (Map [("error", "invalid JWT")])))
    /\ (forall (env : Env) (c : Ctx),
          Now env <= (E - 1) * 1000000000 ->
          Authorization c = tokenString ->
          (forall key,
             JWT.IsExpired (snd (JWT.Parse (Now env) tokenString (Utils.keyFunc key)))
             = false)
          /\ (exists token,
                JWT.Parse (Now env) tokenString (Utils.keyFunc secret)
                = (Some token, None)
                /\ JWT.Valid token = true)
          /\ Utils.JWTMiddleware secret env c
             = Next (SetLocal c "userId" (LocalClaim (JWT.Str S)))).
Proof.
  intros secret S E tokenString Hissue.
  rewrite SignedString_issued in Hissue. inversion Hissue; subst tokenString.
  clear Hissue. split.
  - intros HE env c Hafter Hauth.
    assert (Hdead : ((E =? 0) || (Time.Unix (Now env) <? E)) = false).
    { apply orb_false_iff. split; [now apply Z.eqb_neq | now apply Unix_after]. }
    split.
    + intros key. rewrite Parse_issued, Hdead.
      destruct (String.eqb _ _); reflexivity.
    + unfold Utils.JWTMiddleware. rewrite Hauth. cbn [JWT.is_empty].
      rewrite Parse_issued, Hdead, String.eqb_refl. reflexivity.
  - intros env c Hbefore Hauth.
    assert (Hlive : ((E =? 0) || (Time.Unix (Now env) <? E)) = true).
    { apply orb_true_iff. right. now apply Unix_before. }
    split; [|split].
    + intros key. rewrite Parse_issued, Hlive.
      destruct (String.eqb _ _); reflexivity.
    + eexists. rewrite Parse_issued, Hlive, String.eqb_refl.
      split; reflexivity.
    + exact (JWTMiddleware_issued secret S E env c Hauth Hlive).
Qed.

(** C8 fails on the blank username.  With a user already registered
    under the username "", a sign-up for the username "" is answered 201
    and a second record with that username is stored: the existence check
    reads the found record's username and takes a blank one for "no record
    found". *)
Theorem C8_blank_username_registered_twice :
  forall (password : string),
    SignUp (Demo.at_seconds 0) (Demo.credentials "" password) Demo.dbNameless
    = (Respond
         (JSON StatusCreated
            (UserJSON
               {| User.ID := DriverObjectID (Demo.at_seconds 0);
                  User.Username := "";
                  User.Password := Utils.HashPassword (Demo.at_seconds 0) password |})),
       {| UsersCollection :=
            [Demo.nameless;
             {| User.ID := DriverObjectID (Demo.at_seconds 0);
                User.Username := "";
                User.Password := Utils.HashPassword (Demo.at_seconds 0) password |}];
          TasksCollection := [] |}).
Proof. reflexivity. Qed.

End IdentityClaims.

(** *** The identity claims on examples *)

Section IdentityExamples.
Import Primitive Models Mongo Fiber Database Handlers Identity Demo.
#[local] Existing Instance demoBcrypt.
#[local] Existing Instance demoSigner.

Lemma C3_witness :
  exists tokenString,
    SignIn "secret" 3600 env0 daveSigns (snd (SignUp env0 daveSigns db0))
    = (Respond (JSON StatusOK (TokenMap "token" tokenString)),
       snd (SignUp env0 daveSigns db0))
    /\ Utils.JWTMiddleware "secret" (at_seconds 1719795599) (bearing tokenString)
       = Next (SetLocal (bearing tokenString) "userId"
                 (LocalClaim (JWT.Str (Hex (DriverObjectID env0))))).
Proof.
  destruct (@C3_signin_token_recovers_identifier demoBcrypt demoSigner
              "secret" 3600 env0 env0 daveSigns daveSigns
              db0 (snd (SignUp env0 daveSigns db0)) (snd (SignUp env0 daveSigns db0))
              dave
              {| User.ID := DriverObjectID env0; User.Username := "dave";
                 User.Password := "$2a$14$pw2" |}
              dave "$2a$14$pw2" []
              eq_refl eq_refl eq_refl eq_refl eq_refl eq_refl eq_refl eq_refl eq_refl)
    as (tokenString & Hin & Hmw & _).
  exists tokenString. split; [exact Hin|].
  exact (proj1 (Hmw (at_seconds 1719795599) (bearing tokenString) eq_refl eq_refl)).
Defined.

(** C3 as stated fails: dave signs up with a blank password and is
    created (201), yet signing in with that same username and password is
    answered 400 and yields no token. *)
Lemma C3_counterexample :
  (exists created,
     fst (SignUp env0 daveNoPassword db0)
     = Respond (JSON StatusCreated (UserJSON created))
     /\ In created (UsersCollection (snd (SignUp env0 daveNoPassword db0))))
  /\ status_of (fst (SignIn "secret" 3600 env0 daveNoPassword
                       (snd (SignUp env0 daveNoPassword db0))))
     = Some StatusBadRequest
  /\ ~ (exists tokenString,
          fst (SignIn "secret" 3600 env0 daveNoPassword
                 (snd (SignUp env0 daveNoPassword db0)))
          = Respond (JSON StatusOK (TokenMap "token" tokenString))).
Proof.
  split; [|split].
  - eexists. split; [reflexivity|]. vm_compute. right. left. reflexivity.
  - reflexivity.
  - intros (tokenString & Htoken). vm_compute in Htoken. discriminate Htoken.
Qed.

Lemma C4_witness :
  SignIn "secret" 3600 env0 (credentials "nonexistentuser" "password") db0
  = (Respond (JSON StatusUnauthorized (Map [("error", "invalid credentials")])),
     db0)
  /\ fst (SignIn "secret" 3600 env0 (credentials "nonexistentuser" "password") db0)
     = fst (SignIn "secret" 3600 env0 (credentials "alice" "invalidpassword") db0).
Proof.
  apply (@C4_signin_failures_indistinguishable demoBcrypt demoSigner
           "secret" 3600 env0 env0
           (credentials "nonexistentuser" "password")
           (credentials "alice" "invalidpassword") db0 db0
           {| User.ID := NilObjectID; User.Username := "nonexistentuser";
              User.Password := "password" |}
           {| User.ID := NilObjectID; User.Username := "alice";
              User.Password := "invalidpassword" |}
           eq_refl eq_refl eq_refl).
  - apply UnknownUsername. intros v [<-|[]]. vm_compute. discriminate.
  - reflexivity.
  - reflexivity.
  - reflexivity.
  - apply (WrongPassword _ _ alice); reflexivity.
Defined.

Lemma C5_witness :
  Utils.JWTMiddleware "secret" (at_seconds 1719795601) (bearing aliceToken)
  = Respond (JSON StatusUnauthorized (Map [("error", "invalid JWT")]))
  /\ Utils.JWTMiddleware "secret" (at_seconds 1719795599) (bearing aliceToken)
     = Next (SetLocal (bearing aliceToken) "userId"
               (LocalClaim (JWT.Str (Hex aliceID)))).
Proof.
  destruct (@C5_expiry_is_enforced demoSigner "secret" (Hex aliceID)
              1719795600 aliceToken eq_refl) as [Hafter Hbefore].
  split.
  - refine (proj2 (Hafter _ (at_seconds 1719795601) (bearing aliceToken)
                     eq_refl eq_refl)).
    discriminate.
  - refine (proj2 (proj2 (Hbefore (at_seconds 1719795599) (bearing aliceToken)
                            _ eq_refl))).
    vm_compute. discriminate.
Defined.

(** C5 as stated fails at expiry zero.  A sign-in at second 1719792000
    with a token lifetime of -1719792000 seconds issues a token whose
    expiry claim is 0; at second 1800000000, long after that expiry, the
    validator does not set the Expired bit and the middleware lets the token
    through. *)
Lemma C5_counterexample :
  exists tokenString,
    fst (SignIn "secret" (-1719792000) env0 (credentials "alice" "pw1") db0)
    = Respond (JSON StatusOK (TokenMap "token" tokenString))
    /\ JWT.SignedString
         (JWT.NewWithClaims JWT.SigningMethodHS256 (issued_claims (Hex aliceID) 0))
         "secret" = Some tokenString
    /\ 0 * 1000000000 < Now (at_seconds 1800000000)
    /\ JWT.IsExpired
         (snd (JWT.Parse (Now (at_seconds 1800000000)) tokenString
                 (Utils.keyFunc "secret"))) = false
    /\ Utils.JWTMiddleware "secret" (at_seconds 1800000000) (bearing tokenString)
       = Next (SetLocal (bearing tokenString) "userId"
                 (LocalClaim (JWT.Str (Hex aliceID)))).
Proof.
  eexists. split; [reflexivity|]. split; [reflexivity|].
  split; [reflexivity|]. split; reflexivity.
Qed.

End IdentityExamples.

(* ================================================================== *)
(** * Further properties of the handlers *)

(** ** Task handlers *)

Section TaskExtras.
Import Primitive Models Mongo Fiber Database Handlers.
Import PrimitiveFacts MongoFacts TaskFacts.

Lemma Find_by_owner (owner : ObjectID) (tasks : list Task) :
  Find [("userId", Bson.ObjectIDValue owner)] tasks = filter (owned_by owner) tasks.
Proof.
  unfold Find. apply filter_ext. intros t. unfold matches, owned_by. cbn.
  apply andb_true_r.
Qed.

(** X1. [GetTasks] answers 200 with exactly the stored tasks whose owner
    is the caller, in stored order, and changes nothing; but when the
    caller's identifier string is not twenty-four hexadecimal digits it
    answers 500 "Invalid user ID" instead of converting it to the zero
    identifier as the other task handlers do. *)
Theorem X1_GetTasks_lists_owned :
  forall (c : Ctx) (db : Database) (userId : string),
    userId_of c = Some userId ->
    (forall U, ObjectIDFromHex userId = (U, None) ->
       GetTasks c db
       = (Respond (JSON StatusOK
                     (TasksJSON (filter (owned_by U) (TasksCollection db)))), db)
       /\ (forall t, In t (filter (owned_by U) (TasksCollection db))
                     <-> In t (TasksCollection db) /\ Task.UserID t = U))
    /\ (is_object_id_hex userId = false ->
        GetTasks c db = (error StatusInternalServerError "Invalid user ID", db)).
Proof.
  intros c db userId Hu. split.
  - intros U HU. split.
    + unfold GetTasks. rewrite Hu, HU. now rewrite Find_by_owner.
    + intros t. rewrite filter_In. unfold owned_by. now rewrite oid_eqb_eq.
  - intros Hbad. destruct (ObjectIDFromHex_malformed userId Hbad) as (e & He).
    unfold GetTasks. now rewrite Hu, He.
Qed.

Lemma X1_witness :
  GetTasks Scenarios.bobLists Scenarios.db3
  = (Respond (JSON StatusOK
                (TasksJSON [Demo.bobsTask; Scenarios.bobsSecondTask])),
     Scenarios.db3)
  /\ GetTasks Scenarios.strangerLists Scenarios.db3
     = (error StatusInternalServerError "Invalid user ID", Scenarios.db3).
Proof.
  split.
  - exact (proj1 (proj1 (X1_GetTasks_lists_owned Scenarios.bobLists Scenarios.db3
                           (Hex Demo.bobID) eq_refl) Demo.bobID eq_refl)).
  - exact (proj2 (X1_GetTasks_lists_owned Scenarios.strangerLists Scenarios.db3
                    "guest" eq_refl) eq_refl).
Defined.

(** X2. [UpdateTask] and [DeleteTask] answer 400 "Invalid task ID" to a
    path identifier that is not twenty-four hexadecimal digits, and
    [UpdateTask] answers 400 "Cannot parse JSON" to a body that does not
    decode under a well-formed path identifier; none of these writes
    anything, whatever is stored. *)
Theorem X2_update_delete_bad_request :
  forall (c : Ctx) (db : Database) (userId : string),
    userId_of c = Some userId ->
    (is_object_id_hex (ParamID c) = false ->
     UpdateTask c db = (error StatusBadRequest "Invalid task ID", db)
     /\ DeleteTask c db = (error StatusBadRequest "Invalid task ID", db))
    /\ (is_object_id_hex (ParamID c) = true ->
        BodyTask c = None ->
        UpdateTask c db = (error StatusBadRequest "Cannot parse JSON", db)).
Proof.
  intros c db userId Hu. split.
  - intros Hbad. destruct (ObjectIDFromHex_malformed _ Hbad) as (e & He).
    unfold UpdateTask, DeleteTask. now rewrite Hu, He.
  - intros Hok Hb. destruct (ObjectIDFromHex_ok _ Hok) as (T & HT & _).
    unfold UpdateTask. now rewrite Hu, HT, Hb.
Qed.

Lemma X2_witness :
  UpdateTask Scenarios.bobMalformedPath Scenarios.db3
  = (error StatusBadRequest "Invalid task ID", Scenarios.db3)
  /\ DeleteTask Scenarios.bobMalformedPath Scenarios.db3
     = (error StatusBadRequest "Invalid task ID", Scenarios.db3)
  /\ UpdateTask Scenarios.bobUndecodable Scenarios.db3
     = (error StatusBadRequest "Cannot parse JSON", Scenarios.db3).
Proof.
  split; [|split].
  - exact (proj1 (proj1 (X2_update_delete_bad_request Scenarios.bobMalformedPath
                           Scenarios.db3 (Hex Demo.bobID) eq_refl) eq_refl)).
  - exact (proj2 (proj1 (X2_update_delete_bad_request Scenarios.bobMalformedPath
                           Scenarios.db3 (Hex Demo.bobID) eq_refl) eq_refl)).
  - exact (proj2 (X2_update_delete_bad_request Scenarios.bobUndecodable
                    Scenarios.db3 (Hex Demo.bobID) eq_refl) eq_refl eq_refl).
Defined.

(** *** What is written can be read back *)

Lemma unique_after (T : ObjectID) (pre post : list Task) (t : Task) :
  NoDup (map Task.ID (pre ++ t :: post)) ->
  Task.ID t = T ->
  forall x, In x (pre ++ post) -> Task.ID x <> T.
Proof.
  intros Hnd Ht x Hx Heq. rewrite map_app in Hnd. cbn [map] in Hnd.
  apply NoDup_remove_2 in Hnd. apply Hnd. rewrite <- map_app.
  rewrite Ht, <- Heq. now apply in_map.
Qed.

(** X3. With identifiers unique in the task collection, a [DeleteTask]
    that finds a task with the path identifier and the caller as owner
    answers 204 and removes that one task and nothing else; from then on
    [GetTask] and a second [DeleteTask] for the same identifier both
    answer 404. *)
Theorem X3_delete_then_not_found :
  forall (c : Ctx) (db : Database) (userId : string) (T : ObjectID),
    userId_of c = Some userId ->
    ObjectIDFromHex (ParamID c) = (T, None) ->
    let U := fst (ObjectIDFromHex userId) in
    NoDup (map Task.ID (TasksCollection db)) ->
    (exists t, In t (TasksCollection db) /\ Task.ID t = T /\ Task.UserID t = U) ->
    exists pre t post,
      TasksCollection db = pre ++ t :: post
      /\ Task.ID t = T /\ Task.UserID t = U
      /\ DeleteTask c db
         = (Respond (JSON StatusNoContent Empty), with_tasks db (pre ++ post))
      /\ GetTask c (with_tasks db (pre ++ post))
         = (error StatusNotFound "Task not found", with_tasks db (pre ++ post))
      /\ DeleteTask c (with_tasks db (pre ++ post))
         = (error StatusNotFound "Task not found", with_tasks db (pre ++ post)).
Proof.
  intros c db userId T Hu HT U Hnd (t0 & Hin & Hid & Hown).
  destruct (@first_match _ _ (by_id_and_owner T U) (TasksCollection db))
    as (pre & t & post & Hsplit & Ht & Hpre).
  { exists t0. split; [exact Hin|]. now apply matches_by_id_and_owner. }
  pose proof (proj1 (matches_by_id_and_owner _ _ _) Ht) as [HtT HtU].
  exists pre, t, post.
  split; [exact Hsplit|]. split; [exact HtT|]. split; [exact HtU|].
  assert (Hgone : forall x, In x (TasksCollection (with_tasks db (pre ++ post))) ->
                    matches (by_id_and_owner T U) x = false).
  { cbn [TasksCollection with_tasks]. intros x Hx.
    apply not_matches_by_id_and_owner. intros [HxT _].
    rewrite Hsplit in Hnd. exact (unique_after T pre post t Hnd HtT x Hx HxT). }
  split; [|split].
  - exact (DeleteTask_deleted c db userId T pre post t Hu HT Hsplit Hpre Ht).
  - exact (GetTask_not_found c _ userId T Hu HT Hgone).
  - unfold DeleteTask. rewrite Hu, HT. fold U. fold (by_id_and_owner T U).
    rewrite (DeleteOne_no_match _ _ Hgone). reflexivity.
Qed.

Lemma X3_witness :
  DeleteTask Demo.bobOnBobsTask Scenarios.db3
  = (Respond (JSON StatusNoContent Empty),
     with_tasks Scenarios.db3 [Scenarios.alicesTask; Scenarios.bobsSecondTask])
  /\ GetTask Demo.bobOnBobsTask
       (with_tasks Scenarios.db3 [Scenarios.alicesTask; Scenarios.bobsSecondTask])
     = (error StatusNotFound "Task not found",
        with_tasks Scenarios.db3 [Scenarios.alicesTask; Scenarios.bobsSecondTask]).
Proof.
  destruct (X3_delete_then_not_found Demo.bobOnBobsTask Scenarios.db3
              (Hex Demo.bobID) Demo.taskID eq_refl eq_refl)
    as (pre & t & post & Hsplit & _ & _ & Hdel & Hget & _).
  - cbn. repeat constructor; cbn; intuition discriminate.
  - exists Demo.bobsTask. split; [right; now left | split; reflexivity].
  - assert (Hrest : pre ++ post = [Scenarios.alicesTask; Scenarios.bobsSecondTask]).
    { pose proof Hdel as Hd.
      change (DeleteTask Demo.bobOnBobsTask Scenarios.db3)
        with (Respond (JSON StatusNoContent Empty),
              with_tasks Scenarios.db3
                [Scenarios.alicesTask; Scenarios.bobsSecondTask]) in Hd.
      unfold with_tasks in Hd. injection Hd as Hd. symmetry. exact Hd. }
    rewrite Hrest in Hdel, Hget. split; [exact Hdel | exact Hget].
Defined.

Lemma UpdateTask_updated (c : Ctx) (db : Database) (userId : string)
  (T : ObjectID) (b : Task) (pre post : list Task) (old : Task) :
  userId_of c = Some userId ->
  ObjectIDFromHex (ParamID c) = (T, None) ->
  BodyTask c = Some b ->
  TasksCollection db = pre ++ old :: post ->
  (forall x, In x pre ->
     matches (by_id_and_owner T (fst (ObjectIDFromHex userId))) x = false) ->
  matches (by_id_and_owner T (fst (ObjectIDFromHex userId))) old = true ->
  UpdateTask c db
  = (Respond (JSON StatusOK
                (TaskJSON (force_ids b T (fst (ObjectIDFromHex userId))))),
     with_tasks db (pre ++ force_ids b T (fst (ObjectIDFromHex userId)) :: post)).
Proof.
  intros Hu HT Hb Hsplit Hpre Hold. unfold UpdateTask. rewrite Hu, HT, Hb, Hsplit.
  fold (by_id_and_owner T (fst (ObjectIDFromHex userId))).
  rewrite (UpdateOne_first _ _ pre post old Hpre Hold).
  apply matches_by_id_and_owner in Hold. destruct Hold as [HoldT _].
  rewrite apply_set_same_id; [reflexivity | now rewrite HoldT].
Qed.

(** X4. After an [UpdateTask] that found its task, a [GetTask] for the
    same identifier by the same caller returns exactly the record the
    update answered with, so the echoed copy and a fresh read agree; and
    repeating the same update changes nothing further. *)
Theorem X4_update_then_get :
  forall (c : Ctx) (db : Database) (userId : string) (T : ObjectID) (b : Task),
    userId_of c = Some userId ->
    ObjectIDFromHex (ParamID c) = (T, None) ->
    BodyTask c = Some b ->
    let U := fst (ObjectIDFromHex userId) in
    (exists t, In t (TasksCollection db) /\ Task.ID t = T /\ Task.UserID t = U) ->
    fst (UpdateTask c db) = Respond (JSON StatusOK (TaskJSON (force_ids b T U)))
    /\ GetTask c (snd (UpdateTask c db))
       = (Respond (JSON StatusOK (TaskJSON (force_ids b T U))),
          snd (UpdateTask c db))
    /\ UpdateTask c (snd (UpdateTask c db)) = UpdateTask c db.
Proof.
  intros c db userId T b Hu HT Hb U (t0 & Hin & Hid & Hown).
  destruct (@first_match _ _ (by_id_and_owner T U) (TasksCollection db))
    as (pre & old & post & Hsplit & Hold & Hpre).
  { exists t0. split; [exact Hin|]. now apply matches_by_id_and_owner. }
  assert (Hstored : matches (by_id_and_owner T U) (force_ids b T U) = true).
  { apply matches_by_id_and_owner. split; reflexivity. }
  rewrite (UpdateTask_updated c db userId T b pre post old Hu HT Hb Hsplit Hpre Hold).
  fold U. cbn [fst snd]. split; [reflexivity|]. split.
  - apply (GetTask_found c _ userId T pre post (force_ids b T U) Hu HT);
      [reflexivity | exact Hpre | exact Hstored].
  - rewrite (UpdateTask_updated c (with_tasks db (pre ++ force_ids b T U :: post))
               userId T b pre post (force_ids b T U) Hu HT Hb eq_refl Hpre Hstored).
    reflexivity.
Qed.

Lemma X4_witness :
  GetTask Demo.bobOnBobsTask (snd (UpdateTask Demo.bobOnBobsTask Scenarios.db3))
  = (Respond (JSON StatusOK
                (TaskJSON (force_ids Demo.body Demo.taskID Demo.bobID))),
     snd (UpdateTask Demo.bobOnBobsTask Scenarios.db3)).
Proof.
  refine (proj1 (proj2 (X4_update_then_get Demo.bobOnBobsTask Scenarios.db3
                          (Hex Demo.bobID) Demo.taskID Demo.body
                          eq_refl eq_refl eq_refl _))).
  exists Demo.bobsTask. split; [right; now left | split; reflexivity].
Defined.

(** X5. A task [CreateTask] has stored can be read back by its owner: a
    [GetTask] whose path is the hexadecimal form of the new identifier
    returns the record the create answered with, and, when the caller's
    identifier string is well formed, [GetTasks] returns the caller's
    earlier tasks followed by that record. *)
Theorem X5_create_then_read :
  forall (env : Env) (c c' : Ctx) (db : Database) (userId : string) (b : Task),
    userId_of c = Some userId ->
    BodyTask c = Some b ->
    (exists u, In u (UsersCollection db) /\ User.Username u = Task.AllottedTo b) ->
    IsZero (NewObjectID env) = false ->
    well_formed (NewObjectID env) ->
    (forall t, In t (TasksCollection db) -> Task.ID t <> NewObjectID env) ->
    userId_of c' = Some userId ->
    ParamID c' = Hex (NewObjectID env) ->
    exists stored,
      fst (CreateTask env c db) = Respond (JSON StatusCreated (TaskJSON stored))
      /\ GetTask c' (snd (CreateTask env c db))
         = (Respond (JSON StatusOK (TaskJSON stored)), snd (CreateTask env c db))
      /\ (forall U, ObjectIDFromHex userId = (U, None) ->
            GetTasks c' (snd (CreateTask env c db))
            = (Respond (JSON StatusOK
                          (TasksJSON (filter (owned_by U) (TasksCollection db)
                                      ++ [stored]))),
               snd (CreateTask env c db))).
Proof.
  intros env c c' db userId b Hu Hb Hassignee Hnz Hwf Hfresh Hu' Hpath.
  rewrite (CreateTask_created env c db userId b Hu Hb Hassignee Hnz Hfresh).
  eexists. cbn [fst snd]. split; [reflexivity|]. split.
  - apply (GetTask_found c' _ userId (NewObjectID env) (TasksCollection db) []
             _ Hu').
    + rewrite Hpath. now apply ObjectIDFromHex_Hex.
    + reflexivity.
    + intros x Hx. apply not_matches_by_id_and_owner. intros [Hid _].
      exact (Hfresh x Hx Hid).
    + apply matches_by_id_and_owner. split; reflexivity.
  - intros U HU. unfold GetTasks. rewrite Hu', HU, Find_by_owner.
    cbn [TasksCollection with_tasks]. rewrite filter_app. cbn [filter].
    unfold owned_by at 2. cbn [Task.UserID server_set fst].
    now rewrite oid_eqb_refl.
Qed.

Lemma X5_witness :
  exists stored,
    fst (CreateTask Demo.env0 Demo.aliceCreates Scenarios.db3)
    = Respond (JSON StatusCreated (TaskJSON stored))
    /\ GetTask Scenarios.aliceReadsFresh
         (snd (CreateTask Demo.env0 Demo.aliceCreates Scenarios.db3))
       = (Respond (JSON StatusOK (TaskJSON stored)),
          snd (CreateTask Demo.env0 Demo.aliceCreates Scenarios.db3))
    /\ GetTasks Scenarios.aliceReadsFresh
         (snd (CreateTask Demo.env0 Demo.aliceCreates Scenarios.db3))
       = (Respond (JSON StatusOK (TasksJSON [Scenarios.alicesTask; stored])),
          snd (CreateTask Demo.env0 Demo.aliceCreates Scenarios.db3)).
Proof.
  destruct (X5_create_then_read Demo.env0 Demo.aliceCreates
              Scenarios.aliceReadsFresh Scenarios.db3 (Hex Demo.aliceID) Demo.body
              eq_refl eq_refl)
    as (stored & Hcreate & Hget & Hlist); try reflexivity.
  - exists Demo.alice. split; [now left | reflexivity].
  - intros t [<-|[<-|[<-|[]]]]; vm_compute; discriminate.
  - exists stored. split; [exact Hcreate|]. split; [exact Hget|].
    exact (Hlist Demo.aliceID eq_refl).
Defined.

End TaskExtras.

(** ** Sign-up and sign-in *)

Section IdentityExtras.
Import Primitive Models Mongo Fiber Database Handlers Identity Vocabulary.
Import PrimitiveFacts MongoFacts TaskFacts.
Context `{Bcrypt.Bcrypt} `{JWT.Signer}.

Lemma with_users_unchanged (db : Database) :
  with_users db (UsersCollection db) = db.
Proof. now destruct db. Qed.

Lemma username_unused (username : string) (users : list User) :
  (forall v, In v users -> User.Username v <> username) ->
  FindOne (by_username username) users = Err ErrNoDocuments.
Proof.
  intros Hnone. apply FindOne_none. intros v Hv.
  apply not_matches_by_username. now apply Hnone.
Qed.

(** [InsertOne] on the users, in terms of the identifier the document
    ends up under. *)
Lemma InsertOne_user (env : Env) (user : User) (users : list User) :
  InsertOne (DriverObjectID env) user users
  = if existsb (fun x : User => oid_eqb (doc_id x) (effective_id env user)) users
    then (Err DuplicateKey, users)
    else (Ok {| InsertedID := effective_id env user |},
          users ++ [set_ID user (effective_id env user)]).
Proof.
  unfold InsertOne, effective_id. cbn [doc_id UserDocument].
  destruct (IsZero (User.ID user)); cbn [doc_id with_id UserDocument User.ID];
    destruct (existsb _ users); try reflexivity.
  now destruct user.
Qed.

(** X6. A sign-up whose username no stored user carries is not checked
    any further: blank usernames and passwords pass.  The body's own
    identifier is kept when it has one (the driver's is used otherwise).
    If no stored user has that identifier, the answer is 201 with the
    record that was appended, whose password field is the hash; if a
    stored user has it, the insert fails, the answer is 500 "could not
    create user" and nothing is written. *)
Theorem X6_signup_unused_username :
  forall (env : Env) (c : Ctx) (db : Database) (user : User),
    BodyUser c = Some user ->
    (forall v, In v (UsersCollection db) -> User.Username v <> User.Username user) ->
    let created :=
      {| User.ID := effective_id env user;
         User.Username := User.Username user;
         User.Password := Utils.HashPassword env (User.Password user) |} in
    ((forall v, In v (UsersCollection db) -> User.ID v <> effective_id env user) ->
     SignUp env c db
     = (Respond (JSON StatusCreated (UserJSON created)),
        with_users db (UsersCollection db ++ [created])))
    /\ ((exists v, In v (UsersCollection db) /\ User.ID v = effective_id env user) ->
        SignUp env c db
        = (error StatusInternalServerError "could not create user", db)).
Proof.
  intros env c db user Hb Hunused created.
  assert (Hstart :
    SignUp env c db
    = match InsertOne (DriverObjectID env)
              (set_Password user (Utils.HashPassword env (User.Password user)))
              (UsersCollection db) with
      | (Err _, users) =>
          (error StatusInternalServerError "could not create user",
           with_users db users)
      | (Ok result, users) =>
          (Respond (JSON StatusCreated
                      (UserJSON (set_ID (set_Password user
                                           (Utils.HashPassword env (User.Password user)))
                                   (InsertedID result)))),
           with_users db users)
      end).
  { unfold SignUp. rewrite Hb. fold (by_username (User.Username user)).
    now rewrite (username_unused _ _ Hunused). }
  rewrite Hstart, InsertOne_user.
  change (effective_id env (set_Password user
                              (Utils.HashPassword env (User.Password user))))
    with (effective_id env user).
  split.
  - intros Hfree.
    now rewrite (@no_duplicate User UserDocument (effective_id env user)
                   (UsersCollection db) Hfree).
  - intros (v & Hv & Hid).
    assert (Hdup : existsb (fun x : User => oid_eqb (doc_id x) (effective_id env user))
                     (UsersCollection db) = true).
    { apply existsb_exists. exists v. split; [exact Hv|].
      cbn [doc_id UserDocument]. rewrite Hid. apply oid_eqb_refl. }
    rewrite Hdup. now rewrite with_users_unchanged.
Qed.

Lemma distinct_usernames_append (users : list User) (u : User) :
  distinct_usernames users ->
  is_blank (User.Username u) = true
  \/ (forall v, In v users -> User.Username v <> User.Username u) ->
  distinct_usernames (users ++ [u]).
Proof.
  unfold distinct_usernames. intros Hnd Hu.
  rewrite map_app, filter_app. cbn [map filter].
  destruct (is_blank (User.Username u)) eqn:Hblank; cbn [negb].
  - now rewrite app_nil_r.
  - destruct Hu as [Hu|Hu]; [discriminate|].
    apply NoDup_app; [exact Hnd | repeat constructor; intros [] |].
    intros name Hin [<-|[]]. apply filter_In in Hin. destruct Hin as [Hin _].
    apply in_map_iff in Hin. destruct Hin as (v & Hname & Hv).
    exact (Hu v Hv Hname).
Qed.

Lemma SignUp_keeps_distinct (env : Env) (c : Ctx) (db : Database) :
  distinct_usernames (UsersCollection db) ->
  distinct_usernames (UsersCollection (snd (SignUp env c db))).
Proof.
  intros Hnd. unfold SignUp. destruct (BodyUser c) as [user|]; [|exact Hnd].
  fold (by_username (User.Username user)).
  destruct (FindOne (by_username (User.Username user)) (UsersCollection db))
    as [u|e] eqn:Hf; cbn iota beta.
  - apply FindOne_found in Hf. destruct Hf as [_ Hm].
    apply matches_by_username in Hm.
    destruct (is_blank (User.Username u)) eqn:Hblank; cbn [negb]; [|exact Hnd].
    rewrite InsertOne_user. destruct (existsb _ _); cbn; [exact Hnd|].
    apply distinct_usernames_append; [exact Hnd|]. left.
    cbn [User.Username set_ID set_Password]. now rewrite <- Hm.
  - pose proof (FindOne_error _ _ _ Hf) as ->. cbn iota beta.
    cbn [is_blank zeroUser User.Username negb].
    rewrite InsertOne_user. destruct (existsb _ _); cbn; [exact Hnd|].
    apply distinct_usernames_append; [exact Hnd|]. right.
    intros v Hv. apply not_matches_by_username.
    exact (proj1 (FindOne_none _ _) Hf v Hv).
Qed.

(** X7. Run one after the other, the handlers never bring a second user
    with the same non-blank username into the store: if no two stored
    users share a non-blank username before a call of any of the eight
    handlers, none do after it. *)
Theorem X7_usernames_stay_distinct :
  forall (jwtSecret : string) (tokenExpiryTime : Z) (env : Env) (c : Ctx)
         (db : Database),
    distinct_usernames (UsersCollection db) ->
    distinct_usernames (UsersCollection (snd (SignUp env c db)))
    /\ distinct_usernames
         (UsersCollection (snd (SignIn jwtSecret tokenExpiryTime env c db)))
    /\ distinct_usernames (UsersCollection (snd (SignOut c db)))
    /\ distinct_usernames (UsersCollection (snd (CreateTask env c db)))
    /\ distinct_usernames (UsersCollection (snd (GetTasks c db)))
    /\ distinct_usernames (UsersCollection (snd (GetTask c db)))
    /\ distinct_usernames (UsersCollection (snd (UpdateTask c db)))
    /\ distinct_usernames (UsersCollection (snd (DeleteTask c db))).
Proof.
  intros jwtSecret tokenExpiryTime env c db Hnd.
  destruct (task_handlers_keep_users env c db) as (Hc & Hl & Hg & Hu & Hd).
  destruct (users_only_grow jwtSecret tokenExpiryTime env c db) as (_ & Hin & Hout).
  rewrite Hin, Hout, Hc, Hl, Hg, Hu, Hd.
  split; [now apply SignUp_keeps_distinct|]. repeat (split; [exact Hnd|]).
  exact Hnd.
Qed.

(** *** Sign-in *)

(** Reading a 200 from [SignIn] backwards. *)
Lemma SignIn_ok_inv (jwtSecret : string) (tokenExpiryTime : Z) (env : Env)
  (c : Ctx) (db : Database) (tokenString : JWT.TokenString) :
  fst (SignIn jwtSecret tokenExpiryTime env c db)
  = Respond (JSON StatusOK (TokenMap "token" tokenString)) ->
  exists user foundUser,
    BodyUser c = Some user
    /\ is_blank (User.Username user) = false
    /\ is_blank (User.Password user) = false
    /\ FindOne (by_username (User.Username user)) (UsersCollection db) = Ok foundUser
    /\ Utils.CheckPasswordHash (User.Password user) (User.Password foundUser) = true.
Proof.
  unfold SignIn. destruct (BodyUser c) as [user|]; [|discriminate].
  destruct (is_blank (User.Username user)) eqn:Hname; [discriminate|].
  destruct (is_blank (User.Password user)) eqn:Hpw; [discriminate|].
  cbn [orb]. fold (by_username (User.Username user)).
  destruct (FindOne _ _) as [foundUser|[]] eqn:Hf; try discriminate.
  destruct (Utils.CheckPasswordHash _ _) eqn:Hcheck; [|discriminate].
  intros _. exists user, foundUser.
  split; [reflexivity|]. split; [exact Hname|]. split; [exact Hpw|].
  split; [exact Hf | exact Hcheck].
Qed.

(** X8. [SignIn] answers 200 with a token exactly when the body decodes
    to a non-blank username and a non-blank password, and the password
    verifies against the hash of the first stored user with that username.
    The token is then HS256-signed under the secret, and its claims are the
    hexadecimal form of that user's identifier and the expiry; the store is
    not written. *)
Theorem X8_signin_succeeds_iff :
  forall (jwtSecret : string) (tokenExpiryTime : Z) (env : Env) (c : Ctx)
         (db : Database) (tokenString : JWT.TokenString),
    SignIn jwtSecret tokenExpiryTime env c db
    = (Respond (JSON StatusOK (TokenMap "token" tokenString)), db)
    <-> exists user foundUser,
          BodyUser c = Some user
          /\ is_blank (User.Username user) = false
          /\ is_blank (User.Password user) = false
          /\ FindOne (by_username (User.Username user)) (UsersCollection db)
             = Ok foundUser
          /\ Utils.CheckPasswordHash (User.Password user) (User.Password foundUser)
             = true
          /\ tokenString
             = JWT.Compact "HS256"
                 (issued_claims (Hex (User.ID foundUser))
                    (Time.Unix (Time.Add (Now env) (Time.Seconds tokenExpiryTime))))
                 (JWT.hmac "HS256" jwtSecret
                    (issued_claims (Hex (User.ID foundUser))
                       (Time.Unix (Time.Add (Now env)
                                     (Time.Seconds tokenExpiryTime))))).
Proof.
  intros jwtSecret tokenExpiryTime env c db tokenString. split.
  - intros Hrun.
    destruct (SignIn_ok_inv jwtSecret tokenExpiryTime env c db tokenString)
      as (user & foundUser & Hb & Hname & Hpw & Hf & Hcheck).
    { now rewrite Hrun. }
    exists user, foundUser.
    split; [exact Hb|]. split; [exact Hname|]. split; [exact Hpw|].
    split; [exact Hf|]. split; [exact Hcheck|].
    rewrite (SignIn_issues jwtSecret tokenExpiryTime env c db user foundUser
               Hb Hname Hpw Hf Hcheck) in Hrun.
    inversion Hrun. reflexivity.
  - intros (user & foundUser & Hb & Hname & Hpw & Hf & Hcheck & ->).
    exact (SignIn_issues jwtSecret tokenExpiryTime env c db user foundUser
             Hb Hname Hpw Hf Hcheck).
Qed.

(** Within these bounds [time.Second * time.Duration(n)] does not wrap. *)
Lemma Seconds_in_range (n : Z) :
  -9223372036 <= n <= 9223372036 -> Time.Seconds n = 1000000000 * n.
Proof.
  intros Hn. unfold Time.Seconds, Time.int64_wrap, Time.Second.
  rewrite Z.mod_small; lia.
Qed.

Lemma Unix_add_seconds (t n : Z) :
  Time.Unix (Time.Add t (1000000000 * n)) = Time.Unix t + n.
Proof.
  unfold Time.Unix, Time.Add. rewrite (Z.mul_comm 1000000000 n).
  apply Z.div_add. lia.
Qed.

(** X9. For a token lifetime of at most 9223372036 seconds in absolute
    value, the expiry [SignIn] writes is the issue time in whole seconds
    plus the lifetime; and unless that sum is zero, a request presenting
    the token passes [JWTMiddleware] under the same secret exactly while
    the clock in whole seconds is below it, and is answered 401 "invalid
    JWT" from then on.  A lifetime of zero or less thus issues tokens that
    are never accepted. *)
Theorem X9_token_lifetime :
  forall (jwtSecret : string) (tokenExpiryTime : Z) (env : Env) (c : Ctx)
         (db : Database) (user foundUser : User),
    BodyUser c = Some user ->
    is_blank (User.Username user) = false ->
    is_blank (User.Password user) = false ->
    FindOne (by_username (User.Username user)) (UsersCollection db) = Ok foundUser ->
    Utils.CheckPasswordHash (User.Password user) (User.Password foundUser) = true ->
    -9223372036 <= tokenExpiryTime <= 9223372036 ->
    Time.Unix (Now env) + tokenExpiryTime <> 0 ->
    exists tokenString,
      SignIn jwtSecret tokenExpiryTime env c db
      = (Respond (JSON StatusOK (TokenMap "token" tokenString)), db)
      /\ tokenString
         = JWT.Compact "HS256"
             (issued_claims (Hex (User.ID foundUser))
                (Time.Unix (Now env) + tokenExpiryTime))
             (JWT.hmac "HS256" jwtSecret
                (issued_claims (Hex (User.ID foundUser))
                   (Time.Unix (Now env) + tokenExpiryTime)))
      /\ forall (env' : Env) (c' : Ctx),
           Authorization c' = tokenString ->
           (Time.Unix (Now env') < Time.Unix (Now env) + tokenExpiryTime ->
            Utils.JWTMiddleware jwtSecret env' c'
            = Next (SetLocal c' "userId"
                      (LocalClaim (JWT.Str (Hex (User.ID foundUser))))))
           /\ (Time.Unix (Now env) + tokenExpiryTime <= Time.Unix (Now env') ->
               Utils.JWTMiddleware jwtSecret env' c'
               = Respond (JSON StatusUnauthorized (Map [("error", "invalid JWT")])))
           /\ (tokenExpiryTime <= 0 ->
               Time.Unix (Now env) <= Time.Unix (Now env') ->
               Utils.JWTMiddleware jwtSecret env' c'
               = Respond (JSON StatusUnauthorized (Map [("error", "invalid JWT")]))).
Proof.
  intros jwtSecret tokenExpiryTime env c db user foundUser
    Hb Hname Hpw Hf Hcheck Hrange Hnz.
  eexists. split; [|split; [reflexivity|]].
  - rewrite (SignIn_issues jwtSecret tokenExpiryTime env c db user foundUser
               Hb Hname Hpw Hf Hcheck).
    now rewrite (Seconds_in_range _ Hrange), Unix_add_seconds.
  - intros env' c' Hauth.
    assert (Hdead : Time.Unix (Now env) + tokenExpiryTime <= Time.Unix (Now env') ->
              Utils.JWTMiddleware jwtSecret env' c'
              = Respond (JSON StatusUnauthorized (Map [("error", "invalid JWT")]))).
    { intros Hle. unfold Utils.JWTMiddleware. rewrite Hauth. cbn [JWT.is_empty].
      rewrite Parse_issued, String.eqb_refl.
      rewrite (proj2 (Z.eqb_neq _ _) Hnz), (proj2 (Z.ltb_ge _ _) Hle).
      reflexivity. }
    split; [|split].
    + intros Hlt.
      apply (JWTMiddleware_issued jwtSecret _ _ env' c' Hauth).
      apply orb_true_iff. right. now apply Z.ltb_lt.
    + exact Hdead.
    + intros Hneg Hlater. apply Hdead. lia.
Qed.

(** *** The token middleware on arbitrary requests *)

Lemma one_of_hmac (alg : string) :
  JWT.one_of alg ["HS256"; "HS384"; "HS512"] = true
  <-> alg = "HS256" \/ alg = "HS384" \/ alg = "HS512".
Proof.
  unfold JWT.one_of. cbn [existsb]. rewrite !orb_true_iff, !String.eqb_eq.
  intuition discriminate.
Qed.

(** [MapClaims.Valid] returns nil exactly when the three time claims
    hold. *)
Lemma Valid_nil_iff (t : Time.Time) (m : JWT.MapClaims) :
  JWT.MapClaims_Valid t m = 0
  <-> JWT.VerifyExpiresAt m (Time.Unix t) false = true
      /\ JWT.VerifyIssuedAt m (Time.Unix t) false = true
      /\ JWT.VerifyNotBefore m (Time.Unix t) false = true.
Proof.
  unfold JWT.MapClaims_Valid.
  destruct (JWT.VerifyExpiresAt m (Time.Unix t) false),
           (JWT.VerifyIssuedAt m (Time.Unix t) false),
           (JWT.VerifyNotBefore m (Time.Unix t) false);
    vm_compute; intuition discriminate.
Qed.

Lemma signature_bit (v : Z) :
  0 <= v -> Z.lor v JWT.ValidationErrorSignatureInvalid <> 0.
Proof.
  intros Hv E. apply Z.lor_eq_0_iff in E. destruct E as [_ E]. discriminate E.
Qed.

Lemma Valid_nonneg (t : Time.Time) (m : JWT.MapClaims) :
  0 <= JWT.MapClaims_Valid t m.
Proof.
  unfold JWT.MapClaims_Valid.
  destruct (JWT.VerifyExpiresAt m (Time.Unix t) false),
           (JWT.VerifyIssuedAt m (Time.Unix t) false),
           (JWT.VerifyNotBefore m (Time.Unix t) false);
    vm_compute; discriminate.
Qed.

(** The three ways [JWTMiddleware] can end. *)
Lemma JWTMiddleware_outcome (secret : string) (env : Env) (c : Ctx) :
  (JWT.is_empty (Authorization c) = true
   /\ Utils.JWTMiddleware secret env c
      = Respond (JSON StatusUnauthorized
                   (Map [("error", "missing or malformed JWT")])))
  \/ (JWT.is_empty (Authorization c) = false
      /\ (forall alg claims, ~ accepted secret env c alg claims)
      /\ Utils.JWTMiddleware secret env c
         = Respond (JSON StatusUnauthorized (Map [("error", "invalid JWT")])))
  \/ (exists alg claims,
        accepted secret env c alg claims
        /\ Utils.JWTMiddleware secret env c
           = Next (SetLocal c "userId"
                     (LocalClaim (JWT.index claims "userId")))).
Proof.
  unfold Utils.JWTMiddleware, accepted.
  destruct (Authorization c) as [alg claims signature|text] eqn:Hauth.
  - (* a compact token *)
    cbn [JWT.is_empty]. unfold JWT.Parse, JWT.GetSigningMethod.
    destruct (JWT.one_of alg ["HS256"; "HS384"; "HS512"]) eqn:Halg.
    + cbn [Utils.keyFunc JWT.NewWithClaims JWT.Method JWT.Verify].
      destruct (String.eqb (JWT.hmac alg secret claims) signature) eqn:Hsig.
      * apply String.eqb_eq in Hsig. subst signature.
        destruct (JWT.MapClaims_Valid (Now env) claims =? 0) eqn:Hvalid.
        -- right. right. exists alg, claims. split; [|reflexivity].
           split; [reflexivity|]. split; [now apply one_of_hmac|].
           apply Valid_nil_iff. now apply Z.eqb_eq.
        -- right. left. split; [reflexivity|]. split; [|reflexivity].
           intros alg' claims' (E & _ & Hv). inversion E; subst.
           apply Valid_nil_iff in Hv. apply Z.eqb_neq in Hvalid. contradiction.
      * right. left. split; [reflexivity|].
        rewrite (proj2 (Z.eqb_neq _ _)
                   (signature_bit _ (Valid_nonneg (Now env) claims))).
        split; [|reflexivity].
        intros alg' claims' (E & _). inversion E; subst.
        rewrite String.eqb_refl in Hsig. discriminate.
    + right. left. split; [reflexivity|]. split.
      * intros alg' claims' (E & Hhs & _). inversion E; subst.
        apply one_of_hmac in Hhs. congruence.
      * match goal with
        | |- context [JWT.one_of alg ?l] => destruct (JWT.one_of alg l)
        end; reflexivity.
  - (* any other header text *)
    cbn [JWT.is_empty]. destruct (is_blank text) eqn:Hblank.
    + left. split; reflexivity.
    + right. left. split; [reflexivity|]. split; [|reflexivity].
      intros alg claims (E & _). discriminate E.
Qed.

(** X10. [JWTMiddleware] lets a request through exactly when its
    [Authorization] header is a compact token under HS256, HS384 or HS512
    whose signature is the keyed hash of its claims under the secret and
    whose expiry, issued-at and not-before claims hold at the clock; it
    then changes nothing in the context but [userId], which becomes the
    token's "userId" claim.  Every other request is answered 401: "missing
    or malformed JWT" when the header is empty, "invalid JWT" otherwise.
    It never panics. *)
Theorem X10_middleware_accepts_iff :
  forall (secret : string) (env : Env) (c : Ctx),
    (forall c',
       Utils.JWTMiddleware secret env c = Next c'
       <-> exists alg claims,
             accepted secret env c alg claims
             /\ c' = SetLocal c "userId" (LocalClaim (JWT.index claims "userId")))
    /\ ((forall alg claims, ~ accepted secret env c alg claims) ->
        Utils.JWTMiddleware secret env c
        = Respond (JSON StatusUnauthorized
                     (Map [("error",
                            if JWT.is_empty (Authorization c)
                            then "missing or malformed JWT"
                            else "invalid JWT")])))
    /\ Utils.JWTMiddleware secret env c <> Panic.
Proof.
  intros secret env c.
  destruct (JWTMiddleware_outcome secret env c)
    as [[Hempty Hrun] | [(Hfull & Hno & Hrun) | (alg & claims & Hacc & Hrun)]];
    rewrite Hrun.
  - split; [|split; [|discriminate]].
    + intros c'. split; [discriminate|].
      intros (alg & claims & (Hauth & _) & _).
      rewrite Hauth in Hempty. discriminate.
    + intros _. now rewrite Hempty.
  - split; [|split; [|discriminate]].
    + intros c'. split; [discriminate|].
      intros (alg & claims & Hacc & _). now destruct (Hno alg claims).
    + intros _. now rewrite Hfull.
  - split; [|split; [|discriminate]].
    + intros c'. split.
      * intros E. inversion E. now exists alg, claims.
      * intros (alg' & claims' & (Hauth' & _) & ->).
        destruct Hacc as (Hauth & _). rewrite Hauth in Hauth'.
        inversion Hauth'. reflexivity.
    + intros Hno. now destruct (Hno alg claims).
Qed.

(** *** The task routes *)



(** X13. Reads write nothing, and the two groups of handlers keep out
    of each other's collection: [GetTasks], [GetTask], [SignIn] and
    [SignOut] return the database they were given, [SignUp] leaves the
    tasks alone, and [CreateTask], [UpdateTask] and [DeleteTask] leave the
    users alone. *)
Theorem X13_handlers_keep_to_their_collection :
  forall (jwtSecret : string) (tokenExpiryTime : Z) (env : Env) (c : Ctx)
         (db : Database),
    snd (GetTasks c db) = db
    /\ snd (GetTask c db) = db
    /\ snd (SignIn jwtSecret tokenExpiryTime env c db) = db
    /\ SignOut c db
       = (Respond (JSON StatusOK (Map [("message", "signed out")])), db)
    /\ TasksCollection (snd (SignUp env c db)) = TasksCollection db
    /\ UsersCollection (snd (CreateTask env c db)) = UsersCollection db
    /\ UsersCollection (snd (UpdateTask c db)) = UsersCollection db
    /\ UsersCollection (snd (DeleteTask c db)) = UsersCollection db.
Proof.
  intros jwtSecret tokenExpiryTime env c db.
  destruct (task_handlers_keep_users env c db) as (Hc & _ & _ & Hu & Hd).
  destruct (users_only_grow jwtSecret tokenExpiryTime env c db) as (_ & Hin & _).
  split; [|split; [|split; [exact Hin|split; [reflexivity|split;
    [|split; [exact Hc|split; [exact Hu|exact Hd]]]]]]].
  - unfold GetTasks. destruct (userId_of c); [|reflexivity].
    now destruct (ObjectIDFromHex _) as [U [e|]].
  - unfold GetTask. destruct (userId_of c); [|reflexivity].
    destruct (ObjectIDFromHex (ParamID c)) as [T [e|]]; [reflexivity|].
    now destruct (FindOne _ _).
  - unfold SignUp. destruct (BodyUser c) as [user|]; [|reflexivity].
    destruct (FindOne _ _) as [u|[]]; cbn iota beta; try reflexivity.
    + destruct (negb _); [reflexivity|]. now destruct (InsertOne _ _ _) as [[r|e] l].
    + cbn [negb is_blank zeroUser User.Username].
      now destruct (InsertOne _ _ _) as [[r|e] l].
Qed.

End IdentityExtras.

(** *** The further properties on examples *)

Section IdentityExtrasExamples.
Import Primitive Models Mongo Fiber Database Handlers Identity Vocabulary.
Import Demo Scenarios.
#[local] Existing Instance demoBcrypt.
#[local] Existing Instance demoSigner.

Lemma X6_witness :
  SignUp env0 daveSigns db0
  = (Respond (JSON StatusCreated
                (UserJSON {| User.ID := DriverObjectID env0;
                             User.Username := "dave";
                             User.Password := "$2a$14$pw2" |})),
     with_users db0
       [alice; {| User.ID := DriverObjectID env0; User.Username := "dave";
                  User.Password := "$2a$14$pw2" |}])
  /\ SignUp env0 erinTakesAlicesID db0
     = (error StatusInternalServerError "could not create user", db0).
Proof.
  split.
  - apply (proj1 (@X6_signup_unused_username demoBcrypt env0 daveSigns db0 dave
                    eq_refl
                    ltac:(intros v [<-|[]]; vm_compute; discriminate))).
    intros v [<-|[]]. vm_compute. discriminate.
  - apply (proj2 (@X6_signup_unused_username demoBcrypt env0 erinTakesAlicesID
                    db0 erin eq_refl
                    ltac:(intros v [<-|[]]; vm_compute; discriminate))).
    exists alice. split; [now left | reflexivity].
Defined.

Lemma X7_witness :
  distinct_usernames (UsersCollection (snd (SignUp env0 daveSigns db0)))
  /\ distinct_usernames
       (UsersCollection (snd (SignUp env0 (credentials "alice" "other") db0))).
Proof.
  assert (Hdb0 : distinct_usernames (UsersCollection db0)).
  { unfold distinct_usernames. cbn. repeat constructor. intros []. }
  split.
  - exact (proj1 (@X7_usernames_stay_distinct demoBcrypt demoSigner "secret" 3600
                    env0 daveSigns db0 Hdb0)).
  - exact (proj1 (@X7_usernames_stay_distinct demoBcrypt demoSigner "secret" 3600
                    env0 (credentials "alice" "other") db0 Hdb0)).
Defined.

Lemma X9_witness :
  SignIn "secret" 3600 env0 (credentials "alice" "pw1") db0
  = (Respond (JSON StatusOK (TokenMap "token" aliceToken)), db0)
  /\ Utils.JWTMiddleware "secret" (at_seconds 1719795599) (bearing aliceToken)
     = Next (SetLocal (bearing aliceToken) "userId"
               (LocalClaim (JWT.Str (Hex aliceID))))
  /\ Utils.JWTMiddleware "secret" (at_seconds 1719795600) (bearing aliceToken)
     = Respond (JSON StatusUnauthorized (Map [("error", "invalid JWT")])).
Proof.
  destruct (@X9_token_lifetime demoBcrypt demoSigner "secret" 3600 env0
              (credentials "alice" "pw1") db0
              {| User.ID := NilObjectID; User.Username := "alice";
                 User.Password := "pw1" |}
              alice eq_refl eq_refl eq_refl eq_refl eq_refl)
    as (tokenString & Hin & Htoken & Hlife).
  - vm_compute. split; discriminate.
  - vm_compute. discriminate.
  - change (tokenString = aliceToken) in Htoken. subst tokenString.
    split; [exact Hin|]. split.
    + apply (proj1 (Hlife (at_seconds 1719795599) (bearing aliceToken) eq_refl)).
      reflexivity.
    + apply (proj1 (proj2 (Hlife (at_seconds 1719795600) (bearing aliceToken)
                             eq_refl))).
      vm_compute. discriminate.
Defined.



End IdentityExtrasExamples.

(** ** Failure leaves no trace *)

Section WriteExtras.
Import Primitive Models Mongo Fiber Database Handlers Identity Vocabulary.
Import PrimitiveFacts MongoFacts TaskFacts.
Context `{Bcrypt.Bcrypt} `{JWT.Signer}.

Lemma UpdateOne_unchanged {D : Type} `{Document D} (f : Bson.M) (set : D)
  (c c' : list D) (res : result UpdateResult) :
  UpdateOne f set c = (res, c') ->
  match res with
  | Ok r => MatchedCount r = 0 \/ MatchedCount r = 1
  | Err _ => True
  end
  /\ (match res with Ok r => MatchedCount r = 0 | Err _ => True end -> c' = c).
Proof.
  revert c' res. induction c as [|d c IH]; intros c' res; cbn [UpdateOne].
  - intros E. inversion E. split; [now left | reflexivity].
  - destruct (matches f d).
    + destruct (apply_set set d) as [d'|e]; intros E; inversion E; cbn.
      * split; [now right | discriminate].
      * split; [exact I | reflexivity].
    + destruct (UpdateOne f set c) as [res0 c0] eqn:Hu.
      intros E. inversion E; subst.
      destruct (IH c0 res eq_refl) as [Hcount Hsame].
      split; [exact Hcount|]. intros Hz. now rewrite (Hsame Hz).
Qed.

Lemma DeleteOne_unchanged {D : Type} `{Document D} (f : Bson.M)
  (c c' : list D) (res : result DeleteResult) :
  DeleteOne f c = (res, c') ->
  match res with Ok r => DeletedCount r = 0 | Err _ => True end -> c' = c.
Proof.
  revert c' res. induction c as [|d c IH]; intros c' res; cbn [DeleteOne].
  - intros E. inversion E. reflexivity.
  - destruct (matches f d).
    + intros E. inversion E. cbn. discriminate.
    + destruct (DeleteOne f c) as [res0 c0] eqn:Hd.
      intros E. inversion E; subst. intros Hz. now rewrite (IH c0 res eq_refl Hz).
Qed.

Lemma InsertOne_unchanged {D : Type} `{Document D} (g : ObjectID) (doc : D)
  (c c' : list D) (e : Error) :
  InsertOne g doc c = (Err e, c') -> c' = c.
Proof.
  unfold InsertOne. destruct (existsb _ c); intros E; inversion E; reflexivity.
Qed.

(** X14. Only a success writes.  Whenever [SignUp] or [CreateTask]
    answers anything but 201, [UpdateTask] anything but 200, or
    [DeleteTask] anything but 204 (a panic included), the database after
    the call is the database before it. *)
Theorem X14_only_success_writes :
  forall (env : Env) (c : Ctx) (db : Database),
    (status_of (fst (SignUp env c db)) <> Some StatusCreated ->
     snd (SignUp env c db) = db)
    /\ (status_of (fst (CreateTask env c db)) <> Some StatusCreated ->
        snd (CreateTask env c db) = db)
    /\ (status_of (fst (UpdateTask c db)) <> Some StatusOK ->
        snd (UpdateTask c db) = db)
    /\ (status_of (fst (DeleteTask c db)) <> Some StatusNoContent ->
        snd (DeleteTask c db) = db).
Proof.
  intros env c db. split; [|split; [|split]].
  - unfold SignUp. destruct (BodyUser c) as [user|]; [|reflexivity].
    destruct (FindOne _ _) as [u|[]]; cbn iota beta; try reflexivity.
    + destruct (negb _); [reflexivity|].
      destruct (InsertOne _ _ _) as [[r|e] l] eqn:Hi; cbn.
      * intros Hs. now destruct Hs.
      * intros _. rewrite (InsertOne_unchanged _ _ _ _ _ Hi).
        apply with_users_unchanged.
    + cbn [negb is_blank zeroUser User.Username].
      destruct (InsertOne _ _ _) as [[r|e] l] eqn:Hi; cbn.
      * intros Hs. now destruct Hs.
      * intros _. rewrite (InsertOne_unchanged _ _ _ _ _ Hi).
        apply with_users_unchanged.
  - unfold CreateTask. destruct (userId_of c); [|reflexivity].
    destruct (BodyTask c); [|reflexivity].
    destruct (FindOne _ _) as [u|[]]; try reflexivity.
    destruct (InsertOne _ _ _) as [[r|e] l] eqn:Hi; cbn.
    + intros Hs. now destruct Hs.
    + intros _. rewrite (InsertOne_unchanged _ _ _ _ _ Hi).
      apply with_tasks_same.
  - unfold UpdateTask. destruct (userId_of c); [|reflexivity].
    destruct (ObjectIDFromHex (ParamID c)) as [T [e|]]; [reflexivity|].
    destruct (BodyTask c); [|reflexivity].
    destruct (UpdateOne _ _ _) as [[r|e] l] eqn:Hu; cbn.
    + destruct (UpdateOne_unchanged _ _ _ _ _ Hu) as [_ Hsame]. cbn in Hsame.
      destruct (MatchedCount r =? 0) eqn:Hz; cbn.
      * intros _. apply Z.eqb_eq in Hz. rewrite (Hsame Hz). apply with_tasks_same.
      * intros Hs. now destruct Hs.
    + intros _. destruct (UpdateOne_unchanged _ _ _ _ _ Hu) as [_ Hsame].
      rewrite (Hsame I). apply with_tasks_same.
  - unfold DeleteTask. destruct (userId_of c); [|reflexivity].
    destruct (ObjectIDFromHex (ParamID c)) as [T [e|]]; [reflexivity|].
    destruct (DeleteOne _ _) as [[r|e] l] eqn:Hd; cbn.
    + pose proof (DeleteOne_unchanged _ _ _ _ Hd) as Hsame. cbn in Hsame.
      destruct (DeletedCount r =? 0) eqn:Hz; cbn.
      * intros _. apply Z.eqb_eq in Hz. rewrite (Hsame Hz). apply with_tasks_same.
      * intros Hs. now destruct Hs.
    + intros _. rewrite (DeleteOne_unchanged _ _ _ _ Hd I). apply with_tasks_same.
Qed.


End WriteExtras.

Section WriteExtrasExamples.
Import Primitive Models Mongo Fiber Database Handlers Identity Vocabulary.
Import Demo Scenarios.
#[local] Existing Instance demoBcrypt.
#[local] Existing Instance demoSigner.


End WriteExtrasExamples.
